(** * dvm-helper: version resolution and activation of the Docker client

    A shallow embedding of [dvm-helper/dvm-helper.go] and the properties of
    its commands.

    - Go strings are [string], sequences of bytes; the functions of
      [strings] and [path/filepath] the program calls are written out for a
      system whose path separator is [/].
    - The file system is a finite map from path to node, the process
      environment (PATH, DOCKER_VERSION), the package-level variables, the
      answers of the remote endpoints and the console are fields of an
      explicit [World] that every function threads through.
    - A call returns a value, or the process exits with a code ([os.Exit],
      reached through [die]); [install] and [use] call each other, so both
      carry a bound on the depth of calls.
    - The pattern engines the program links against ([regexp],
      [filepath.Match], [go-glob], [semver]) are a parameter, the class
      [GoLib]; the two regular expressions written in the program are
      embedded as recognisers.
    - The command-line front end ([main], [setGlobalVars]) and the
      construction of the GitHub client are outside the embedding. *)

From Stdlib Require Import ZArith Ascii String List Bool Lia.
From stdpp Require Import base option list sorting strings gmap fin_maps.

Local Open Scope Z_scope.
Local Open Scope stdpp_scope.

(** ** Byte strings: the parts of Go's [strings] package the program uses *)

Module Str.

(** [strings.ContainsRune(s, c)] for a one-byte [c]. *)
Fixpoint has_byte (c : ascii) (s : string) : bool :=
  match s with
  | EmptyString => false
  | String a s' => Ascii.eqb a c || has_byte c s'
  end.

(** [strings.ContainsAny(s, chars)]. *)
Fixpoint has_any (chars : string) (s : string) : bool :=
  match s with
  | EmptyString => false
  | String a s' => has_byte a chars || has_any chars s'
  end.

(** [strings.Split(s, sep)] for a one-byte separator: never empty. *)
Fixpoint split (sep : ascii) (s : string) : list string :=
  match s with
  | EmptyString => [EmptyString]
  | String a s' =>
      if Ascii.eqb a sep then EmptyString :: split sep s'
      else match split sep s' with
           | [] => [String a EmptyString]
           | h :: t => String a h :: t
           end
  end.

(** [strings.Join(l, sep)]. *)
Fixpoint join (sep : string) (l : list string) : string :=
  match l with
  | [] => EmptyString
  | [x] => x
  | x :: l' => x +:+ sep +:+ join sep l'
  end.

(** [strings.HasPrefix(s, p)]. *)
Fixpoint has_prefix (p s : string) : bool :=
  match p, s with
  | EmptyString, _ => true
  | String a p', String b s' => Ascii.eqb a b && has_prefix p' s'
  | String _ _, EmptyString => false
  end.

(** [s[len(p):]] when [p] is a prefix of [s]. *)
Fixpoint strip_prefix (p s : string) : option string :=
  match p, s with
  | EmptyString, _ => Some s
  | String a p', String b s' =>
      if Ascii.eqb a b then strip_prefix p' s' else None
  | String _ _, EmptyString => None
  end.

(** The bytes of [s] before the first [c]; all of [s] when there is none. *)
Fixpoint before_byte (c : ascii) (s : string) : string :=
  match s with
  | EmptyString => EmptyString
  | String a s' => if Ascii.eqb a c then EmptyString else String a (before_byte c s')
  end.

(** [s[:strings.LastIndex(s, c)]], when [c] occurs in [s]. *)
Fixpoint before_last_byte (c : ascii) (s : string) : option string :=
  match s with
  | EmptyString => None
  | String a s' =>
      match before_last_byte c s' with
      | Some r => Some (String a r)
      | None => if Ascii.eqb a c then Some EmptyString else None
      end
  end.

(** [sort.Strings]: ascending byte-wise order. *)
Definition sort (l : list string) : list string := merge_sort String.le l.

End Str.

(** [strings.TrimSpace]: leading and trailing white space removed, where
    white space is Go's [unicode.IsSpace] read on the UTF-8 bytes: the six
    ASCII characters, U+0085, U+00A0, U+1680, U+2000..U+200A, U+2028, U+2029,
    U+202F, U+205F and U+3000. *)
Module TrimSpace.

(** The rest of [s] after one leading white-space rune, if it starts with one. *)
Definition drop_space (s : list N) : option (list N) :=
  match s with
  | a :: r =>
      if ((9 <=? a) && (a <=? 13) || (a =? 32))%N then Some r else
      match s with
      | 194%N :: b :: r2 => if ((b =? 133) || (b =? 160))%N then Some r2 else None
      | 225%N :: 154%N :: 128%N :: r3 => Some r3
      | 226%N :: 128%N :: c :: r3 =>
          if ((128 <=? c) && (c <=? 138) || (c =? 168) || (c =? 169) || (c =? 175))%N
          then Some r3 else None
      | 226%N :: 129%N :: 159%N :: r3 => Some r3
      | 227%N :: 128%N :: 128%N :: r3 => Some r3
      | _ => None
      end
  | [] => None
  end.

(** The rest of the reversed [s] after one trailing white-space rune. *)
Definition drop_space_rev (s : list N) : option (list N) :=
  match s with
  | a :: r =>
      if ((9 <=? a) && (a <=? 13) || (a =? 32))%N then Some r else
      match s with
      | b :: 194%N :: r2 => if ((b =? 133) || (b =? 160))%N then Some r2 else None
      | 128%N :: 154%N :: 225%N :: r3 => Some r3
      | c :: 128%N :: 226%N :: r3 =>
          if ((128 <=? c) && (c <=? 138) || (c =? 168) || (c =? 169) || (c =? 175))%N
          then Some r3 else None
      | 159%N :: 129%N :: 226%N :: r3 => Some r3
      | 128%N :: 128%N :: 227%N :: r3 => Some r3
      | _ => None
      end
  | [] => None
  end.

Fixpoint trim_with (drop : list N -> option (list N)) (fuel : nat) (s : list N) : list N :=
  match fuel with
  | O => s
  | S fuel' =>
      match drop s with
      | Some r => trim_with drop fuel' r
      | None => s
      end
  end.

Definition bytes (s : string) : list N := map N_of_ascii (list_ascii_of_string s).
Definition of_bytes (l : list N) : string := string_of_list_ascii (map ascii_of_N l).

Definition trim (s : string) : string :=
  let l := bytes s in
  let l1 := trim_with drop_space (length l) l in
  let l2 := trim_with drop_space_rev (length l1) (rev l1) in
  of_bytes (rev l2).

End TrimSpace.

Definition strings_TrimSpace : string -> string := TrimSpace.trim.

(** ** Paths: Go's [path/filepath] on a system whose separator is [/] *)

Module Filepath.

Definition is_dot (e : string) : bool := String.eqb e ".".
Definition is_dotdot (e : string) : bool := String.eqb e "..".

(** The elements of a cleaned path: empty and [.] elements are dropped, a
    [..] removes the element before it, is dropped at the root and is kept
    in front of a relative path.  [st] is the stack of kept elements, last
    one first; [ups] counts the leading [..] of a relative path. *)
Fixpoint clean_elems (rooted : bool) (elems : list string)
    (ups : nat) (st : list string) : list string :=
  match elems with
  | [] => repeat ".." ups ++ rev st
  | e :: rest =>
      if String.eqb e "" || is_dot e then clean_elems rooted rest ups st
      else if is_dotdot e then
        match st with
        | _ :: st' => clean_elems rooted rest ups st'
        | [] => if rooted then clean_elems rooted rest ups []
                else clean_elems rooted rest (S ups) []
        end
      else clean_elems rooted rest ups (e :: st)
  end.

(** [filepath.Clean]. *)
Definition Clean (path : string) : string :=
  if String.eqb path "" then "." else
  let rooted := Str.has_prefix "/" path in
  let out := (if rooted then "/" else "")
               +:+ Str.join "/" (clean_elems rooted (Str.split "/" path) 0 []) in
  if String.eqb out "" then "." else out.

(** [filepath.Join]: the elements from the first non-empty one on, joined
    with the separator and cleaned; the empty string when all are empty. *)
Fixpoint Join (elem : list string) : string :=
  match elem with
  | [] => ""
  | e :: rest => if String.eqb e "" then Join rest else Clean (Str.join "/" elem)
  end.

(** [filepath.Split]: the path up to and with its last separator, and the
    rest. *)
Fixpoint Split (path : string) : string * string :=
  match path with
  | EmptyString => ("", "")
  | String a p' =>
      let '(d, f) := Split p' in
      if Str.has_byte "/" p' then (String a d, f)
      else if Ascii.eqb a "/" then ("/", p')
      else ("", path)
  end.

(** The path without its trailing separators. *)
Fixpoint strip_trailing_slashes (path : string) : string :=
  match path with
  | EmptyString => EmptyString
  | String a p' =>
      match strip_trailing_slashes p' with
      | EmptyString => if Ascii.eqb a "/" then EmptyString else String a EmptyString
      | r => String a r
      end
  end.

(** [filepath.Base]: the last element of the path, after its trailing
    separators are removed; [.] for the empty path and the separator for a
    path of separators only. *)
Definition Base (path : string) : string :=
  if String.eqb path "" then "." else
  let p := strip_trailing_slashes path in
  if String.eqb p "" then "/" else snd (Split p).

(** [hasMeta] of [filepath.Glob]. *)
Definition hasMeta (path : string) : bool := Str.has_any "*?[" path.

(** [s[0 : len(s)-1]]. *)
Fixpoint chop_last (s : string) : string :=
  match s with
  | EmptyString => EmptyString
  | String a EmptyString => EmptyString
  | String a s' => String a (chop_last s')
  end.

(** The directory part of a glob pattern, as [filepath.Glob] prepares it:
    [.] for none, the root as it is, the trailing separator chopped off
    otherwise. *)
Definition glob_dir (dir : string) : string :=
  if String.eqb dir "" then "."
  else if String.eqb dir "/" then "/"
  else chop_last dir.

End Filepath.

(** ** The world a command runs in *)

(** A file is kept with its permission to execute and its contents; the
    contents of an executable stand for what it prints when run with [-v]. *)
Inductive Node : Type :=
| Dir
| File (executable : bool) (data : string).

Global Instance Node_eq_dec : EqDecision Node.
Proof. solve_decision. Defined.

(** The channel a message is written to ([writeInfo], [writeWarning],
    [writeDebug], [die]'s error line, [color.Green]). *)
Inductive Level : Type := Info | Warning | Debug | Error | Green.

Global Instance Level_eq_dec : EqDecision Level.
Proof. solve_decision. Defined.

(** What a GitHub API call gave: a response with its status code and decoded
    body, or an error, with the response when there was one. *)
Inductive Fetched (A : Type) : Type :=
| Response (status : Z) (body : A)
| Failed (response : option Z).
Arguments Response {A} status body.
Arguments Failed {A} response.

Record World : Type := mkWorld {
  (* package-level variables, set from the command line and at build time *)
  shell : string;
  dvmDir : string;
  dvmVersion : string;
  binaryFileExt : string;
  dockerOS : string;
  dockerArch : string;
  (* the process environment *)
  env_PATH : list string;
  env_DOCKER_VERSION : string;
  (* the file system, and the paths the process may not change *)
  fs : gmap string Node;
  denied : gset string;
  executable_path : string;
  (* the remote endpoints *)
  docker_tags : Fetched (list string);
  dvm_latest_release : Fetched string;
  downloads : gmap string string;
  (* the messages written so far, oldest first *)
  console : list (Level * string)
}.

Definition set_PATH (p : list string) (w : World) : World :=
  mkWorld (shell w) (dvmDir w) (dvmVersion w) (binaryFileExt w) (dockerOS w)
    (dockerArch w) p (env_DOCKER_VERSION w) (fs w) (denied w)
    (executable_path w) (docker_tags w) (dvm_latest_release w) (downloads w)
    (console w).

Definition set_fs (f : gmap string Node) (w : World) : World :=
  mkWorld (shell w) (dvmDir w) (dvmVersion w) (binaryFileExt w) (dockerOS w)
    (dockerArch w) (env_PATH w) (env_DOCKER_VERSION w) f (denied w)
    (executable_path w) (docker_tags w) (dvm_latest_release w) (downloads w)
    (console w).

Definition set_console (c : list (Level * string)) (w : World) : World :=
  mkWorld (shell w) (dvmDir w) (dvmVersion w) (binaryFileExt w) (dockerOS w)
    (dockerArch w) (env_PATH w) (env_DOCKER_VERSION w) (fs w) (denied w)
    (executable_path w) (docker_tags w) (dvm_latest_release w) (downloads w) c.

(** How a call ends: it returns a value, the process exits with a code, or
    the recursion budget of the model is used up. *)
Inductive Outcome (A : Type) : Type :=
| Returned (a : A) (w : World)
| Exited (code : Z) (w : World)
| OutOfFuel (w : World).
Arguments Returned {A} a w.
Arguments Exited {A} code w.
Arguments OutOfFuel {A} w.

Definition M (A : Type) : Type := World -> Outcome A.

Definition ret {A : Type} (a : A) : M A := fun w => Returned a w.

Definition bind {A B : Type} (m : M A) (k : A -> M B) : M B :=
  fun w =>
    match m w with
    | Returned a w' => k a w'
    | Exited code w' => Exited code w'
    | OutOfFuel w' => OutOfFuel w'
    end.

Definition get {A : Type} (f : World -> A) : M A := fun w => Returned (f w) w.
Definition modify (f : World -> World) : M unit := fun w => Returned tt (f w).
Definition os_Exit {A : Type} (code : Z) : M A := fun w => Exited code w.
Definition out_of_fuel {A : Type} : M A := fun w => OutOfFuel w.

Declare Scope dvm_scope.
Delimit Scope dvm_scope with dvm.
Notation "x <- m ;; k" := (bind m (fun x => k))
  (at level 100, m at next level, right associativity) : dvm_scope.
Notation "m ;; k" := (bind m (fun _ => k))
  (at level 100, right associativity) : dvm_scope.
Notation "'when' b 'then' m ;; k" := (bind (if b then m else ret tt) (fun _ => k))
  (at level 100, b at next level, m at next level, right associativity) : dvm_scope.
Local Open Scope dvm_scope.

(** The value a call returned, and the code the process exited with. *)
Definition returned {A : Type} (o : Outcome A) : option A :=
  match o with
  | Returned a _ => Some a
  | _ => None
  end.

Definition exit_code {A : Type} (o : Outcome A) : option Z :=
  match o with
  | Exited code _ => Some code
  | _ => None
  end.

(** The world a call leaves behind, however it ends. *)
Definition final {A : Type} (o : Outcome A) : World :=
  match o with
  | Returned _ w => w
  | Exited _ w => w
  | OutOfFuel w => w
  end.

(** ** The libraries the program links against

    The matching engines are taken as they are: [regexp.Compile] followed by
    [MatchString] ([None] when the pattern does not compile),
    [filepath.Match] ([None] for [ErrBadPattern]), [glob.Glob] of
    [ryanuber/go-glob], and the parser and comparison of [blang/semver]. *)
Class GoLib : Type := {
  regexp_Compile : string -> option (string -> bool);
  filepath_Match : string -> string -> option bool;
  glob_Glob : string -> string -> bool;
  semver : Type;
  semver_Make : string -> option semver;
  semver_Compare : semver -> semver -> Z
}.

(** ** The operating system *)

Module OS.

(** A Go [(value, error)] pair; the error is [None] for [nil]. *)
Definition result (A : Type) : Type := (A * option string)%type.

Definition ok {A : Type} (a : A) : result A := (a, None).
Definition failed {A : Type} (a : A) (e : string) : result A := (a, Some e).
Definition is_nil (e : option string) : bool :=
  match e with None => true | Some _ => false end.
Definition error_text (e : option string) : string :=
  match e with None => "<nil>" | Some text => text end.

(** [os.Stat] (and [os.Lstat]: the model has no links). *)
Definition Stat (path : string) (f : gmap string Node) : option Node := f !! path.

(** [k] is [path] or lies below it. *)
Definition below (path k : string) : bool :=
  String.eqb k path || Str.has_prefix (path +:+ "/") k.

(** The name of the path [k] as an entry of [dir], when it is one. *)
Definition entry_name (dir k : string) : option string :=
  let '(d, n) := Filepath.Split k in
  if negb (String.eqb n "") && String.eqb (Filepath.glob_dir d) dir
  then Some n else None.

(** The names of the entries of [dir], sorted, as [glob] reads them with
    [Readdirnames] and [sort.Strings]. *)
Definition readdirnames (dir : string) (f : gmap string Node) : list string :=
  Str.sort (omap (entry_name dir) (map_to_list f).*1).

(** The directories above [path], outermost first. *)
Fixpoint ancestors_from (pre : string) (elems : list string) : list string :=
  match elems with
  | e :: ((_ :: _) as rest) =>
      let d := pre +:+ e in
      (if String.eqb d "" then [] else [d]) ++ ancestors_from (d +:+ "/") rest
  | _ => []
  end.

Definition ancestors (path : string) : list string :=
  ancestors_from "" (Str.split "/" path).

(** [os.MkdirAll] of the directory of [path]: the missing ones are created. *)
Definition mkdir_parents (path : string) (f : gmap string Node) : gmap string Node :=
  fold_left (fun g d => match g !! d with Some _ => g | None => <[d := Dir]> g end)
    (ancestors path) f.

(** [os.RemoveAll]: [path] and all below it. *)
Definition remove_all (path : string) (f : gmap string Node) : gmap string Node :=
  filter (fun kv => below path (fst kv) = false) f.

Section Glob.
Context `{L : GoLib}.

(** The loop of [glob] over the sorted names of a directory: the matching
    names are appended to [m]; a malformed pattern ends it with the matches
    so far and an error. *)
Fixpoint glob_names (dir pattern : string) (names : list string)
    (m : list string) : list string * bool :=
  match names with
  | [] => (m, true)
  | n :: rest =>
      match filepath_Match pattern n with
      | None => (m, false)
      | Some true => glob_names dir pattern rest (m ++ [Filepath.Join [dir; n]])
      | Some false => glob_names dir pattern rest m
      end
  end.

(** [glob(dir, pattern, matches)] of [path/filepath]. *)
Definition glob (f : gmap string Node) (dir pattern : string)
    (matches : list string) : list string * bool :=
  match Stat dir f with
  | Some Dir => glob_names dir pattern (readdirnames dir f) matches
  | _ => (matches, true)
  end.

Fixpoint glob_each (f : gmap string Node) (file : string) (dirs : list string)
    (matches : list string) : list string * bool :=
  match dirs with
  | [] => (matches, true)
  | d :: rest =>
      let '(matches', good) := glob f d file matches in
      if good then glob_each f file rest matches' else (matches', false)
  end.

(** [filepath.Glob]; the second component is [false] for an error.  The
    recursion is on the directory part of the pattern, which is shorter than
    the pattern. *)
Fixpoint Glob_rec (fuel : nat) (f : gmap string Node) (pattern : string)
    : list string * bool :=
  if negb (Filepath.hasMeta pattern) then
    match Stat pattern f with
    | Some _ => ([pattern], true)
    | None => ([], true)
    end
  else
    let '(dir0, file) := Filepath.Split pattern in
    let dir := Filepath.glob_dir dir0 in
    if negb (Filepath.hasMeta dir) then glob f dir file []
    else
      match fuel with
      | O => ([], false)
      | S fuel' =>
          let '(m, good) := Glob_rec fuel' f dir in
          if good then glob_each f file m [] else ([], false)
      end.

Definition Glob (f : gmap string Node) (pattern : string) : list string * bool :=
  Glob_rec (String.length pattern) f pattern.

End Glob.

End OS.

(** ** The program *)

Definition retCodeInvalidArgument : Z := 127.
Definition retCodeInvalidOperation : Z := 3.
Definition retCodeRuntimeError : Z := 1.

(** The exit code of the Go runtime after a panic. *)
Definition retCodePanic : Z := 2.

Definition tab : string := String "009"%char EmptyString.
Definition newline : ascii := "010"%char.
Definition dquote : string := String "034"%char EmptyString.

Import OS.

(** *** Collaborators that live in the other files of the package *)

(** Modelled from the spec: the output helpers [writeInfo], [writeWarning],
    [writeDebug] and [color.Green] are not in this file; each call is
    recorded on the console with its channel and its formatted text (which
    of them reach the terminal depends on the verbosity flags). *)
Definition write (l : Level) (text : string) : M unit :=
  modify (fun w => set_console (console w ++ [(l, text)]) w).

Definition writeInfo : string -> M unit := write Info.
Definition writeWarning : string -> M unit := write Warning.
Definition writeDebug : string -> M unit := write Debug.
Definition color_Green : string -> M unit := write Green.

(** Modelled from the spec: [die] is not in this file; a fatal error prints
    one message and terminates the process with the given exit code. *)
Definition die {A : Type} (message : string) (exitCode : Z) : M A :=
  write Error message ;; os_Exit exitCode.

(** Modelled from the spec: [pathExists] is not in this file; it says whether
    the path names an entry of the file system. *)
Definition pathExists (path : string) : M bool :=
  get (fun w => match Stat path (fs w) with Some _ => true | None => false end).

(** Modelled from the spec: [writeFile] is not in this file; the contents are
    persisted at the path, the directories above it are created as needed, an
    existing file is overwritten, and a failure is a fatal RuntimeError. *)
Definition writeFile (path contents : string) : M unit :=
  w <- get id ;;
  if decide (path ∈ denied w)
  then die ("Unable to create " +:+ path) retCodeRuntimeError
  else modify (set_fs (<[path := File false contents]> (mkdir_parents path (fs w)))).

(** Modelled from the spec: [downloadFileWithChecksum] is not in this file; a
    checksum-verified download into the target path, creating the parent
    directories as needed; a download or checksum failure is a fatal
    RuntimeError.  [downloads] maps a URL to the payload that passes its
    checksum. *)
Definition downloadFileWithChecksum (url destPath : string) : M unit :=
  w <- get id ;;
  match downloads w !! url with
  | Some payload =>
      if decide (destPath ∈ denied w)
      then die ("Unable to download " +:+ url) retCodeRuntimeError
      else modify (set_fs (<[destPath := File true payload]> (mkdir_parents destPath (fs w))))
  | None => die ("Unable to download " +:+ url) retCodeRuntimeError
  end.

(** Modelled from the spec: the PATH helpers [getPath], [setPath],
    [prependPath] and [removePath] are not in this file; PATH is the ordered
    sequence of its entries, [prependPath] inserts an entry at the front and
    [removePath] strips every entry the given predicate selects, keeping the
    others in their order. *)
Definition getPath : M (list string) := get env_PATH.
Definition setPath (p : list string) : M unit := modify (set_PATH p).
Definition prependPath (dir : string) : M unit :=
  modify (fun w => set_PATH (dir :: env_PATH w) w).
Definition removePath (selected : string -> bool) : M unit :=
  modify (fun w => set_PATH (filter (fun e => selected e = false) (env_PATH w)) w).

(** The path elements that count: those of the cleaned path. *)
Definition path_segments (p : string) : list string :=
  Str.split "/" (Filepath.Clean p).

Fixpoint segments_below (root p : list string) : bool :=
  match root, p with
  | [], _ :: _ => true
  | r :: root', e :: p' => String.eqb r e && segments_below root' p'
  | _, _ => false
  end.

(** Modelled from the spec: [getCleanDvmPathRegex] is not in this file; it
    selects the PATH entries that lie under the managed bin root, by a
    structural predicate on path segments. *)
Definition getCleanDvmPathRegex (binRoot : string) (entry : string) : bool :=
  segments_below (path_segments binRoot) (path_segments entry).

(** [exec.LookPath(file)] for a [file] without separator: the first PATH
    entry that holds an executable file of that name; an empty entry is the
    current directory, an empty PATH finds nothing. *)
Definition findExecutable (f : gmap string Node) (path : string) : bool :=
  match Stat path f with
  | Some (File true _) => true
  | _ => false
  end.

Fixpoint look_in (f : gmap string Node) (file : string) (dirs : list string)
    : result string :=
  match dirs with
  | [] => failed "" "executable file not found in $PATH"
  | dir :: rest =>
      let path := Filepath.Join [if String.eqb dir "" then "." else dir; file] in
      if findExecutable f path then ok path else look_in f file rest
  end.

Definition exec_LookPath (file : string) : M (result string) :=
  get (fun w =>
    if String.eqb (Str.join ":" (env_PATH w)) ""
    then failed "" "executable file not found in $PATH"
    else look_in (fs w) file (env_PATH w)).

(** [exec.Command(path, "-v").Output()], the error dropped as the caller
    does: what the executable at [path] prints, nothing when there is none. *)
Definition exec_Output (path : string) : M string :=
  get (fun w => match Stat path (fs w) with
                | Some (File true data) => data
                | _ => ""
                end).

(** [ioutil.ReadFile]. *)
Definition ioutil_ReadFile (path : string) : M (result string) :=
  get (fun w => match Stat path (fs w) with
                | Some (File _ data) => ok data
                | Some Dir => failed "" "is a directory"
                | None => failed "" "no such file or directory"
                end).

(** [os.RemoveAll]: no error when the path does not exist. *)
Definition os_RemoveAll (path : string) : M (option string) :=
  w <- get id ;;
  if decide (path ∈ denied w) then ret (Some "permission denied")
  else modify (set_fs (remove_all path (fs w))) ;; ret None.

(** [os.Remove] of a file. *)
Definition os_Remove (path : string) : M (option string) :=
  w <- get id ;;
  match Stat path (fs w) with
  | None => ret (Some "no such file or directory")
  | Some _ =>
      if decide (path ∈ denied w) then ret (Some "permission denied")
      else modify (set_fs (delete path (fs w))) ;; ret None
  end.

(** [os.Stat(path)]'s error: [None] when the path exists. *)
Definition os_Stat (path : string) : M (option string) :=
  get (fun w => match Stat path (fs w) with
                | Some _ => None
                | None => Some "no such file or directory"
                end).

(** *** The regular expressions written in the program *)

(** The longest prefix of [s] whose bytes satisfy [p], and the rest. *)
Fixpoint span (p : ascii -> bool) (s : string) : string * string :=
  match s with
  | String a s' =>
      if p a then let '(l, r) := span p s' in (String a l, r) else (EmptyString, s)
  | EmptyString => (EmptyString, EmptyString)
  end.

Definition in_range (lo hi : N) (a : ascii) : bool :=
  ((lo <=? N_of_ascii a) && (N_of_ascii a <=? hi))%N.

(** [\d] and [[1-9]]. *)
Definition is_digit : ascii -> bool := in_range 48 57.
Definition is_1_to_9 : ascii -> bool := in_range 49 57.

(** One or more bytes of the class [p], then the byte [c]: the rest. *)
Definition plus_then (p : ascii -> bool) (c : ascii) (s : string) : option string :=
  match span p s with
  | (String _ _, String a rest) => if Ascii.eqb a c then Some rest else None
  | _ => None
  end.

(** The body of the tag pattern, [[1-9]+\.\d+\.\d+] up to the end. *)
Definition version_shape (body : string) : bool :=
  match plus_then is_1_to_9 "." body with
  | Some r1 =>
      match plus_then is_digit "." r1 with
      | Some r2 =>
          match span is_digit r2 with
          | (String _ _, EmptyString) => true
          | _ => false
          end
      | None => false
      end
  | None => false
  end.

(** [regexp.MustCompile(`^v([1-9]+\.\d+\.\d+)$`).FindStringSubmatch]: the
    whole match and the group, or nothing. *)
Definition tagRegex_FindStringSubmatch (s : string) : list string :=
  match s with
  | String "v" body => if version_shape body then [s; body] else []
  | _ => []
  end.

(** [FindSubmatch] of the pattern of [getDockerVersion]: the text
    [Docker version ] at the start, a group of any bytes but line breaks, as
    many as possible, and a comma.  The group is the longest run without a
    line break that a comma follows. *)
Definition dockerRegex_FindSubmatch (raw : string) : list string :=
  match Str.strip_prefix "Docker version " raw with
  | Some rest =>
      match Str.before_last_byte "," (Str.before_byte newline rest) with
      | Some g => ["Docker version " +:+ g +:+ ","; g]
      | None => []
      end
  | None => []
  end.

Notation "'let*' p := m 'in' k" := (bind m (fun x => let 'p := x in k))
  (at level 100, p pattern, m at next level, right associativity) : dvm_scope.

(** *** [dvm-helper.go] *)

Definition getDvmDir (w : World) : string := dvmDir w.

Definition getVersionDir (w : World) (version : string) : string :=
  Filepath.Join [dvmDir w; "bin"; "docker"; version].

Definition getAliasPath (w : World) (alias : string) : string :=
  Filepath.Join [dvmDir w; "alias"; alias].

Definition getDockerVersionVar (w : World) : string :=
  strings_TrimSpace (env_DOCKER_VERSION w).

Definition getBinaryName (w : World) : string := "docker" +:+ binaryFileExt w.

Definition getDockerBinaryName (w : World) (version : string) : string :=
  let version := if String.eqb version "experimental" then "latest" else version in
  "docker-" +:+ version +:+ binaryFileExt w.

Definition buildDownloadURL (w : World) (version : string) : string :=
  let mirrorURL :=
    if String.eqb version "experimental"
    then "https://experimental.docker.com/builds"
    else "https://get.docker.com/builds" in
  let version := if String.eqb version "experimental" then "latest" else version in
  mirrorURL +:+ "/" +:+ dockerOS w +:+ "/" +:+ dockerArch w
    +:+ "/docker-" +:+ version +:+ binaryFileExt w.

(** Modelled from the spec: [url.Join] of the package's [url] directory is
    not in this file; the non-empty elements joined with a slash. *)
Definition url_Join (elem : list string) : string :=
  Str.join "/" (filter (fun e => String.eqb e "" = false) elem).

Definition buildDvmReleaseURL (version : string) (elem : list string) : string :=
  let prefix := url_Join ["https://download.getcarina.com/dvm"; version] in
  let suffix := url_Join elem in
  url_Join [prefix; suffix].

Definition buildDvmOutputScriptPath (w : World) : string :=
  let fileExtension :=
    if String.eqb (shell w) "powershell" then "ps1"
    else if String.eqb (shell w) "cmd" then "cmd"
    else "sh" in
  Filepath.Join [dvmDir w; ".tmp"; "dvm-output." +:+ fileExtension].

(** Modelled from the spec: [buildPathScript] is not in this file; the PATH
    assignment in the dialect of the shell setting, POSIX export syntax by
    default. *)
Definition buildPathScript (w : World) : string :=
  let path := Str.join ":" (env_PATH w) in
  if String.eqb (shell w) "powershell" then "$env:PATH=" +:+ dquote +:+ path +:+ dquote
  else if String.eqb (shell w) "cmd" then "PATH=" +:+ path
  else "export PATH=" +:+ dquote +:+ path +:+ dquote.

Definition writePathScript : M unit :=
  scriptPath <- get buildDvmOutputScriptPath ;;
  contents <- get buildPathScript ;;
  writeFile scriptPath contents.

Definition removePreviousDvmVersionFromPath : M unit :=
  binRoot <- get (fun w => getVersionDir w "") ;;
  removePath (getCleanDvmPathRegex binRoot).

Definition prependDvmVersionToPath (version : string) : M unit :=
  versionDir <- get (fun w => getVersionDir w version) ;;
  prependPath versionDir.

Definition deactivate : M unit :=
  removePreviousDvmVersionFromPath ;;
  writePathScript.

Definition getCurrentDockerPath : M (result string) := exec_LookPath "docker".

Definition getDockerVersion (dockerPath : string) : M (result string) :=
  rawVersion <- exec_Output dockerPath ;;
  writeDebug (dockerPath +:+ " -v output: " +:+ rawVersion) ;;
  let found := dockerRegex_FindSubmatch rawVersion in
  if (length found <? 2)%nat
  then ret (failed "" "Could not detect docker version.")
  else ret (ok (nth 1 found "")).

Definition getSystemDockerPath : M (result string) :=
  originalPath <- getPath ;;
  removePreviousDvmVersionFromPath ;;
  r <- exec_LookPath "docker" ;;
  setPath originalPath ;;
  ret r.

Definition getSystemDockerVersion : M (result string) :=
  let* (systemDockerPath, err) := getSystemDockerPath in
  if is_nil err then getDockerVersion systemDockerPath else ret ("", err).

Definition getExperimentalDockerPath : M (result string) :=
  experimentalVersionPath <-
    get (fun w => Filepath.Join [getVersionDir w "experimental"; getBinaryName w]) ;;
  err <- os_Stat experimentalVersionPath ;;
  ret (experimentalVersionPath, err).

Definition getExperimentalDockerVersion : M (result string) :=
  let* (experimentalVersionPath, err) := getExperimentalDockerPath in
  if is_nil err then getDockerVersion experimentalVersionPath else ret ("", err).

Definition getCurrentDockerVersion : M (result string) :=
  let* (currentDockerPath, err) := getCurrentDockerPath in
  if is_nil err then
    let* (current, _) := getDockerVersion currentDockerPath in
    let* (systemDockerPath, _) := getSystemDockerPath in
    let current :=
      if String.eqb currentDockerPath systemDockerPath
      then "system (" +:+ current +:+ ")" else current in
    let* (experimentalVersionPath, _) := getExperimentalDockerPath in
    let current :=
      if String.eqb currentDockerPath experimentalVersionPath
      then "experimental (" +:+ current +:+ ")" else current in
    ret (ok current)
  else ret ("", err).

Definition current : M unit :=
  let* (current, err) := getCurrentDockerVersion in
  if is_nil err then writeInfo current else writeWarning "N/A".

Definition which : M unit :=
  let* (currentPath, err) := getCurrentDockerPath in
  if is_nil err then writeInfo currentPath else ret tt.

Definition warnWhenRateLimitExceeded (err : option string) (response : option Z) : M unit :=
  if is_nil err then ret tt else
  match response with
  | None => die "panic: runtime error: invalid memory address or nil pointer dereference" retCodePanic
  | Some status =>
      if status =? 403
      then writeWarning "Your GitHub API rate limit has been exceeded. Set the GITHUB_TOKEN environment variable or use the --github-token parameter with your GitHub personal access token to authenticate and increase the rate limit."
      else ret tt
  end.

Section Program.
Context `{L : GoLib}.

Definition isUpgradeAvailable : M (bool * string) :=
  release <- get dvm_latest_release ;;
  match release with
  | Failed response =>
      warnWhenRateLimitExceeded (Some "request failed") response ;;
      writeWarning "Unable to query the latest dvm release from GitHub:" ;;
      writeWarning "request failed" ;;
      ret (false, "")
  | Response status tagName =>
      if negb (status =? 200) then
        writeWarning "Unable to query the latest dvm release from GitHub (Status %s):" ;;
        ret (false, "")
      else
        running <- get dvmVersion ;;
        match semver_Make running with
        | None =>
            writeWarning "Unable to parse the current dvm version as a semantic version!" ;;
            writeWarning "invalid version" ;;
            ret (false, "")
        | Some currentVersion =>
            match semver_Make tagName with
            | None =>
                writeWarning "Unable to parse the latest dvm version as a semantic version!" ;;
                writeWarning "invalid version" ;;
                ret (false, "")
            | Some latestVersion =>
                ret (semver_Compare latestVersion currentVersion >? 0, tagName)
            end
        end
  end.

(** Modelled from the spec: [upgradeSelf] is not in this file; a
    checksum-verified download of the release and the replacement of the
    running executable by it, the original left intact on failure. *)
Definition upgradeSelf (version : string) : M unit :=
  w <- get id ;;
  let url := buildDvmReleaseURL version
               [dockerOS w; dockerArch w; "dvm-helper" +:+ binaryFileExt w] in
  match downloads w !! url with
  | Some payload => modify (set_fs (<[executable_path w := File true payload]> (fs w)))
  | None => die ("Unable to download " +:+ url) retCodeRuntimeError
  end.

Definition upgrade (checkOnly : bool) (version : string) : M unit :=
  running <- get dvmVersion ;;
  if negb (String.eqb version "") && String.eqb running version then
    writeWarning ("dvm " +:+ version +:+ " is already installed.")
  else
    target <-
      (if String.eqb version "" then
         let* (shouldUpgrade, latestVersion) := isUpgradeAvailable in
         if negb shouldUpgrade then
           writeInfo "The latest version of dvm is already installed." ;;
           ret None
         else ret (Some latestVersion)
       else ret (Some version)) ;;
    match target with
    | None => ret tt
    | Some version =>
        if checkOnly then
          writeInfo ("dvm " +:+ version
            +:+ " is available. Run `dvm upgrade` to install the latest version.")
        else
          writeInfo ("Upgrading to dvm " +:+ version +:+ "...") ;;
          upgradeSelf version
    end.

(** The loop of [getInstalledVersions] over the matched directories. *)
Fixpoint installed_loop (versions : list string) (results : list string)
    : M (list string) :=
  match versions with
  | [] => ret results
  | versionDir :: rest =>
      let version := Filepath.Base versionDir in
      if String.eqb version "experimental" then
        let* (experimentalVersion, err) := getExperimentalDockerVersion in
        if is_nil err then
          installed_loop rest
            (results ++ ["experimental (" +:+ experimentalVersion +:+ ")"])
        else
          experimentalDir <- get (fun w => getVersionDir w "experimental") ;;
          writeDebug ("Unable to get version of installed experimental version at "
            +:+ experimentalDir +:+ "." +:+ String newline (error_text err)) ;;
          installed_loop rest results
      else installed_loop rest (results ++ [version])
  end.

Definition getInstalledVersions (pattern : string) : M (list string) :=
  versions <- get (fun w => fst (Glob (fs w) (getVersionDir w pattern))) ;;
  results <- installed_loop versions [] ;;
  results <-
    (if glob_Glob pattern "system" then
       let* (systemVersion, err) := getSystemDockerVersion in
       if is_nil err then ret (results ++ ["system (" +:+ systemVersion +:+ ")"])
       else ret results
     else ret results) ;;
  ret (Str.sort results).

Definition isVersionInstalled (version : string) : M bool :=
  installedVersions <- getInstalledVersions version ;;
  ret (0 <? length installedVersions)%nat.

(** The loop of [getAvailableVersions] over the tags. *)
Fixpoint available_loop (patternRegex : string -> bool) (tags : list string)
    (results : list string) : list string :=
  match tags with
  | [] => results
  | version :: rest =>
      let found := tagRegex_FindStringSubmatch version in
      if (1 <? length found)%nat && patternRegex version
      then available_loop patternRegex rest (results ++ [nth 1 found ""])
      else available_loop patternRegex rest results
  end.

Definition getAvailableVersions (pattern : string) : M (list string) :=
  fetched <- get docker_tags ;;
  match fetched with
  | Failed response =>
      warnWhenRateLimitExceeded (Some "request failed") response ;;
      die "Unable to retrieve list of Docker tags from GitHub" retCodeRuntimeError
  | Response status tags =>
      if negb (status =? 200) then
        die "Unable to retrieve list of Docker tags from GitHub (Status %s)."
          retCodeRuntimeError
      else
        match regexp_Compile pattern with
        | None => die "Invalid pattern." retCodeInvalidOperation
        | Some patternRegex => ret (Str.sort (available_loop patternRegex tags []))
        end
  end.

Definition versionExists (version : string) : M bool :=
  if String.eqb version "experimental" then ret true
  else
    availableVersions <- getAvailableVersions version ;;
    ret (existsb (String.eqb version) availableVersions).

Definition listRemote (pattern : string) : M unit :=
  versions <- getAvailableVersions pattern ;;
  fold_right (fun version k => writeInfo version ;; k) (ret tt) versions.

Definition aliasExists (alias : string) : M bool :=
  aliasPath <- get (fun w => getAliasPath w alias) ;;
  err <- os_Stat aliasPath ;;
  ret (is_nil err).

(** The loop of [getAliases] over the alias files; the result is a Go map
    from alias to version. *)
Fixpoint aliases_loop (aliases : list string) (results : gmap string string)
    : M (gmap string string) :=
  match aliases with
  | [] => ret results
  | aliasPath :: rest =>
      let alias := Filepath.Base aliasPath in
      let* (version, err) := ioutil_ReadFile aliasPath in
      if is_nil err then aliases_loop rest (<[alias := version]> results)
      else
        writeDebug ("Excluding alias: " +:+ error_text err +:+ ".") ;;
        aliases_loop rest results
  end.

Definition getAliases : M (gmap string string) :=
  aliases <- get (fun w => fst (Glob (fs w) (getAliasPath w "*"))) ;;
  aliases_loop aliases ∅.

(** [listAlias] ranges over a Go map, in no specified order; the model takes
    the order of [map_to_list]. *)
Definition listAlias : M unit :=
  aliases <- getAliases ;;
  fold_right
    (fun '(alias, version) k => writeInfo (tab +:+ alias +:+ " -> " +:+ version) ;; k)
    (ret tt) (map_to_list aliases).

Definition ensureVersionIsInstalled (install : string -> M unit) (version : string)
    : M unit :=
  installed <- isVersionInstalled version ;;
  if installed then ret tt
  else
    writeInfo (version +:+ " is not installed. Installing now...") ;;
    install version.

(** [use], with the [install] it falls back on. *)
Definition use_with (install : string -> M unit) (version : string) : M unit :=
  version <- (if String.eqb version "" then get getDockerVersionVar else ret version) ;;
  if String.eqb version "" then
    die "The use command requires that a version is specified or the DOCKER_VERSION environment variable is set."
      retCodeInvalidOperation
  else if String.eqb version "system" then
    let* (systemDockerVersion, err) := getSystemDockerVersion in
    if is_nil err then
      removePreviousDvmVersionFromPath ;;
      writeInfo ("Now using system version of Docker: " +:+ systemDockerVersion) ;;
      writePathScript
    else die "System version of Docker not found." retCodeInvalidOperation
  else
    isAlias <- aliasExists version ;;
    version <-
      (if isAlias then
         aliasPath <- get (fun w => getAliasPath w version) ;;
         let* (aliasedVersion, _) := ioutil_ReadFile aliasPath in
         writeDebug ("Using alias: " +:+ version +:+ " -> " +:+ aliasedVersion) ;;
         ret aliasedVersion
       else ret version) ;;
    ensureVersionIsInstalled install version ;;
    removePreviousDvmVersionFromPath ;;
    prependDvmVersionToPath version ;;
    writePathScript ;;
    writeInfo ("Now using Docker " +:+ version).

(** [install], with the [use] it ends in. *)
Definition install_with (use : string -> M unit) (version : string) : M unit :=
  version <- (if String.eqb version "" then get getDockerVersionVar else ret version) ;;
  if String.eqb version "" then
    die "The install command requires that a version is specified or the DOCKER_VERSION environment variable is set."
      retCodeInvalidArgument
  else
    found <- versionExists version ;;
    if negb found then
      die ("Version " +:+ version
             +:+ " not found - try `dvm ls-remote` to browse available versions.")
        retCodeInvalidOperation
    else
      versionDir <- get (fun w => getVersionDir w version) ;;
      present <- pathExists versionDir ;;
      (if String.eqb version "experimental" && present then
         err <- os_RemoveAll versionDir ;;
         if is_nil err then ret tt
         else die ("Unable to remove experimental version at " +:+ versionDir +:+ ".")
                retCodeRuntimeError
       else ret tt) ;;
      err <- os_Stat versionDir ;;
      if is_nil err then
        writeWarning (version +:+ " is already installed") ;;
        use version
      else
        writeInfo ("Installing " +:+ version +:+ "...") ;;
        url <- get (fun w => buildDownloadURL w version) ;;
        binaryPath <-
          get (fun w => Filepath.Join [getDvmDir w; "bin/docker"; version; getBinaryName w]) ;;
        downloadFileWithChecksum url binaryPath ;;
        writeDebug ("Installed Docker " +:+ version +:+ " to " +:+ binaryPath +:+ ".") ;;
        use version.

(** [install] and [use] call each other; [fuel] bounds the depth of the
    calls of [install]. *)
Fixpoint install (fuel : nat) (version : string) : M unit :=
  match fuel with
  | O => out_of_fuel
  | S fuel' => install_with (use_with (install fuel')) version
  end.

Definition use (fuel : nat) (version : string) : M unit :=
  use_with (install fuel) version.

Definition uninstall (version : string) : M unit :=
  if String.eqb version "" then
    die "The uninstall command requires that a version is specified."
      retCodeInvalidArgument
  else
    let* (current, _) := getCurrentDockerVersion in
    if String.eqb current version then
      die "Cannot uninstall the currently active Docker version."
        retCodeInvalidOperation
    else
      versionDir <- get (fun w => getVersionDir w version) ;;
      err <- os_Stat versionDir ;;
      if negb (is_nil err) then writeWarning (version +:+ " is not installed.")
      else
        err <- os_RemoveAll versionDir ;;
        if negb (is_nil err) then
          die ("Unable to uninstall Docker version " +:+ version +:+ " located in "
                 +:+ versionDir +:+ ".") retCodeRuntimeError
        else writeInfo ("Uninstalled Docker " +:+ version +:+ ".").

Definition alias (alias version : string) : M unit :=
  if String.eqb alias "" || String.eqb version "" then
    die "The alias command requires both an alias name and a version."
      retCodeInvalidArgument
  else
    installed <- isVersionInstalled version ;;
    if negb installed then
      die ("The aliased version, " +:+ version +:+ ", is not installed.")
        retCodeInvalidArgument
    else
      aliasPath <- get (fun w => getAliasPath w alias) ;;
      err <- os_Stat aliasPath ;;
      (if is_nil err then writeDebug "Overwriting existing alias." else ret tt) ;;
      writeFile aliasPath version ;;
      writeInfo ("Aliased " +:+ alias +:+ " to " +:+ version +:+ ".").

Definition unalias (alias : string) : M unit :=
  if String.eqb alias "" then
    die "The unalias command requires an alias name." retCodeInvalidArgument
  else
    isAlias <- aliasExists alias ;;
    if negb isAlias then writeWarning (alias +:+ " is not an alias.")
    else
      aliasPath <- get (fun w => getAliasPath w alias) ;;
      err <- os_Remove aliasPath ;;
      if negb (is_nil err) then
        die ("Unable to remove alias " +:+ alias +:+ " at " +:+ aliasPath +:+ ".")
          retCodeRuntimeError
      else writeInfo ("Removed alias " +:+ alias).

(** The loop of [list] over the versions. *)
Fixpoint list_loop (current : string) (versions : list string) : M unit :=
  match versions with
  | [] => ret tt
  | version :: rest =>
      (if String.eqb current version
       then color_Green ("->" +:+ tab +:+ version)
       else writeInfo (tab +:+ version)) ;;
      list_loop current rest
  end.

Definition list_ (pattern : string) : M unit :=
  let pattern := pattern +:+ "*" in
  versions <- getInstalledVersions pattern ;;
  let* (current, _) := getCurrentDockerVersion in
  list_loop current versions.

End Program.

(** ** A small instance of the libraries, for running the program

    Each engine covers a fragment of its library's pattern language and
    agrees with the library there: regular expressions of literal bytes and
    [.]; shell patterns of literal bytes and [*]; [go-glob] patterns;
    versions of three decimal numbers.  A pattern outside the fragment is
    answered as malformed, which the libraries do for some of them only (an
    unbalanced parenthesis, for one); the statements below that run the
    program use patterns inside the fragments, and the unbalanced
    parenthesis. *)
Module Sample.

(** [p], where [.] stands for any byte, is a prefix of [s]. *)
Fixpoint dot_prefix (p s : string) : bool :=
  match p, s with
  | EmptyString, _ => true
  | String a p', String b s' =>
      (Ascii.eqb a "." || Ascii.eqb a b) && dot_prefix p' s'
  | String _ _, EmptyString => false
  end.

(** [p] matches somewhere in [s]. *)
Fixpoint dot_search (p s : string) : bool :=
  dot_prefix p s ||
  match s with
  | String _ s' => dot_search p s'
  | EmptyString => false
  end.

Definition regexp_Compile (pattern : string) : option (string -> bool) :=
  if Str.has_any "()[]{}*+?|\^$" pattern then None
  else Some (dot_search pattern).

(** A pattern of literal bytes and [*]; a star matches any run of bytes
    other than the separator. *)
Fixpoint wild (p : string) : string -> bool :=
  match p with
  | EmptyString => fun s => String.eqb s ""
  | String a p' =>
      if Ascii.eqb a "*" then
        fix skip (s : string) : bool :=
          wild p' s ||
          match s with
          | String b s' => negb (Ascii.eqb b "/") && skip s'
          | EmptyString => false
          end
      else
        fun s =>
          match s with
          | String b s' => Ascii.eqb a b && wild p' s'
          | EmptyString => false
          end
  end.

Definition filepath_Match (pattern name : string) : option bool :=
  if Str.has_any "?[\" pattern then None else Some (wild pattern name).

(** The rest of [s] after the first occurrence of [sub]. *)
Fixpoint after_first (sub s : string) : option string :=
  match Str.strip_prefix sub s with
  | Some r => Some r
  | None =>
      match s with
      | String _ s' => after_first sub s'
      | EmptyString => None
      end
  end.

Definition has_suffix (suffix s : string) : bool :=
  Str.has_prefix (String.rev suffix) (String.rev s).

(** The middle parts of the pattern, each found after the one before. *)
Fixpoint glob_parts (parts : list string) (subj : string) : bool :=
  match parts with
  | [] => true
  | [lastPart] => has_suffix lastPart subj
  | part :: rest =>
      match after_first part subj with
      | Some subj' => glob_parts rest subj'
      | None => false
      end
  end.

Definition glob_Glob (pattern subj : string) : bool :=
  if String.eqb pattern "" then String.eqb subj pattern
  else if String.eqb pattern "*" then true
  else
    match Str.split "*" pattern with
    | [_] => String.eqb subj pattern
    | first :: rest =>
        match Str.strip_prefix first subj with
        | Some subj' => glob_parts rest subj'
        | None => false
        end
    | [] => false
    end.

Fixpoint number (s : string) (acc : N) : option N :=
  match s with
  | EmptyString => Some acc
  | String a s' =>
      if is_digit a then number s' (10 * acc + (N_of_ascii a - 48))%N else None
  end.

Definition semver_Make (s : string) : option (N * N * N) :=
  match Str.split "." s with
  | [a; b; c] =>
      if String.eqb a "" || String.eqb b "" || String.eqb c "" then None else
      match number a 0%N, number b 0%N, number c 0%N with
      | Some x, Some y, Some z => Some (x, y, z)
      | _, _, _ => None
      end
  | _ => None
  end.

Definition semver_Compare (x y : N * N * N) : Z :=
  let '(a, b, c) := x in
  let '(a', b', c') := y in
  match (a ?= a')%N, (b ?= b')%N, (c ?= c')%N with
  | Lt, _, _ | Eq, Lt, _ | Eq, Eq, Lt => -1
  | Eq, Eq, Eq => 0
  | _, _, _ => 1
  end.

Definition lib : GoLib :=
  Build_GoLib regexp_Compile filepath_Match glob_Glob
    (N * N * N) semver_Make semver_Compare.

(** A managed root [/home/u/.dvm] with the given entries and PATH. *)
Definition world (entries : list (string * Node)) (path : list string)
    (tags : list string) : World :=
  mkWorld "sh" "/home/u/.dvm" "0.2.0" "" "Linux" "x86_64"
    path ""
    (list_to_map entries) ∅ "/home/u/.dvm/dvm-helper/dvm-helper"
    (Response 200 tags) (Response 200 "0.3.0") ∅ [].

Definition dirs : list (string * Node) :=
  [("/home", Dir); ("/home/u", Dir); ("/usr", Dir);
   ("/home/u/.dvm", Dir); ("/home/u/.dvm/bin", Dir);
   ("/home/u/.dvm/bin/docker", Dir); ("/home/u/.dvm/alias", Dir);
   ("/home/u/.dvm/.tmp", Dir); ("/usr/bin", Dir)].

Definition docker (version : string) : Node :=
  File true ("Docker version " +:+ version +:+ ", build a34a1d5").

(** Nothing installed, no Docker client anywhere. *)
Definition bare : World := world dirs ["/usr/bin"] [].

(** Releases 1.1.0 and 1.10.0 installed, a system client 1.9.1, the system
    client active; the upstream project has tagged six releases. *)
Definition two_releases : World :=
  world
    (dirs ++
     [("/home/u/.dvm/bin/docker/1.1.0", Dir);
      ("/home/u/.dvm/bin/docker/1.1.0/docker", docker "1.1.0");
      ("/home/u/.dvm/bin/docker/1.10.0", Dir);
      ("/home/u/.dvm/bin/docker/1.10.0/docker", docker "1.10.0");
      ("/usr/bin/docker", docker "1.9.1")])
    ["/usr/bin"]
    ["v1.10.0"; "v10.0.0"; "v0.9.0"; "v1.9.1"; "v1.10.0-rc1"; "v11.2.3"].

(** The experimental build installed and active, before the system client. *)
Definition experimental_active : World :=
  world
    (dirs ++
     [("/home/u/.dvm/bin/docker/experimental", Dir);
      ("/home/u/.dvm/bin/docker/experimental/docker", docker "1.11.0-dev");
      ("/usr/bin/docker", docker "1.9.1")])
    ["/home/u/.dvm/bin/docker/experimental"; "/usr/bin"]
    [].

(** The experimental build installed, with a binary that does not report a
    version; no other client. *)
Definition experimental_broken : World :=
  world
    (dirs ++
     [("/home/u/.dvm/bin/docker/experimental", Dir);
      ("/home/u/.dvm/bin/docker/experimental/docker", File true "Segmentation fault")])
    ["/usr/bin"]
    [].

(** A system client whose version line has no comma, nothing installed. *)
Definition odd_system_client : World :=
  world (dirs ++ [("/usr/bin/docker", File true "Docker version 1.10.0 build a34a1d5")])
    ["/usr/bin"] [].

End Sample.

(** ** Notions the properties are stated with *)

(** [w'] is [w] with more messages on the console and nothing else changed. *)
Definition extends (w w' : World) : Prop :=
  exists msgs, w' = set_console (console w ++ msgs) w.

(** However [m] ends, it has changed nothing but the console. *)
Definition console_only {A : Type} (m : M A) : Prop :=
  forall w, extends w (final (m w)).

(** These calls return: none of them exits. *)
Definition returns {A : Type} (m : M A) : Prop :=
  forall w, exists a w', m w = Returned a w'.

(** The entry lies under the managed bin root of [w]. *)
Definition managed (w : World) (entry : string) : bool :=
  getCleanDvmPathRegex (getVersionDir w "") entry.

(** What the regular-expression library is relied on for: the empty pattern
    matches every text, and a version of the tag shape, read as a pattern,
    matches its own tag (its digits match themselves and its dots match
    anything). *)
Definition regexp_empty_matches_all `{L : GoLib} : Prop :=
  forall m s, regexp_Compile "" = Some m -> m s = true.

Definition regexp_version_matches_own_tag `{L : GoLib} : Prop :=
  forall v m, version_shape v = true -> regexp_Compile v = Some m ->
              m (String "v" v) = true.

(** An element that [filepath.Clean] keeps as it is: not empty, not [.] or
    [..], and without separator. *)
Definition regular (e : string) : bool :=
  negb (String.eqb e "") && negb (String.eqb e ".") && negb (String.eqb e "..")
  && negb (Str.has_byte "/" e).

(** A clean absolute path other than the root: a separator, then regular
    elements with separators between them. *)
Definition clean_absolute (path : string) : bool :=
  match Str.split "/" path with
  | EmptyString :: ((_ :: _) as elems) => forallb regular elems
  | _ => false
  end.

(** What the glob libraries are relied on for: a shell pattern of literal
    bytes followed by a star matches the names, without separator, that
    begin with those bytes, and a [go-glob] pattern without star matches the
    text equal to it. *)
Definition match_literal_star `{L : GoLib} : Prop :=
  forall p name,
    Str.has_any "*?[\" p = false -> Str.has_byte "/" name = false ->
    filepath_Match (p +:+ "*") name = Some (Str.has_prefix p name).

Definition glob_literal `{L : GoLib} : Prop :=
  forall p s, Str.has_byte "*" p = false -> glob_Glob p s = String.eqb s p.

(** The managed bin root, for a clean absolute [dvmDir]. *)
Definition binRoot (w : World) : string := dvmDir w +:+ "/bin/docker".

(** The result of [getDockerVersion] at a path: read off the file system. *)
Definition probe (f : gmap string Node) (path : string) : result string :=
  let raw := match Stat path f with
             | Some (File true data) => data
             | _ => ""
             end in
  let found := dockerRegex_FindSubmatch raw in
  if (length found <? 2)%nat
  then failed "" "Could not detect docker version."
  else ok (nth 1 found "").

(** The result of [getExperimentalDockerVersion]. *)
Definition experimental_probe (w : World) : result string :=
  let path := Filepath.Join [getVersionDir w "experimental"; getBinaryName w] in
  match Stat path (fs w) with
  | Some _ => probe (fs w) path
  | None => ("", Some "no such file or directory")
  end.

(** The result of [getSystemDockerVersion]: the first client on PATH outside
    the managed bin root. *)
Definition system_probe (w : World) : result string :=
  let path := filter (fun e => managed w e = false) (env_PATH w) in
  let '(systemDockerPath, err) :=
    if String.eqb (Str.join ":" path) ""
    then failed "" "executable file not found in $PATH"
    else look_in (fs w) "docker" path in
  if is_nil err then probe (fs w) systemDockerPath else ("", err).

(** The line of a version in the listing: plain, or marked as active. *)
Definition listed (v : string) (w : World) : Prop :=
  (Info, tab +:+ v) ∈ console w \/ (Green, "->" +:+ tab +:+ v) ∈ console w.

(** * Properties *)

(** ** Calls that only write to the console *)

Lemma extends_refl w : extends w w.
Proof. exists []. destruct w; cbn. by rewrite app_nil_r. Qed.

Lemma extends_trans w1 w2 w3 : extends w1 w2 -> extends w2 w3 -> extends w1 w3.
Proof.
  intros [m1 ->] [m2 ->]. exists (m1 ++ m2).
  destruct w1; cbn. by rewrite app_assoc.
Qed.

Lemma extends_fs w w' : extends w w' -> fs w' = fs w.
Proof. by intros [m ->]. Qed.

Lemma extends_PATH w w' : extends w w' -> env_PATH w' = env_PATH w.
Proof. by intros [m ->]. Qed.

Lemma extends_dvmDir w w' : extends w w' -> dvmDir w' = dvmDir w.
Proof. by intros [m ->]. Qed.

Lemma extends_binaryFileExt w w' : extends w w' -> binaryFileExt w' = binaryFileExt w.
Proof. by intros [m ->]. Qed.

Lemma extends_console w w' :
  extends w w' -> exists msgs, console w' = console w ++ msgs.
Proof. intros [m ->]. by exists m. Qed.

Lemma console_only_ret {A} (a : A) : console_only (ret a).
Proof. intros w. apply extends_refl. Qed.

Lemma console_only_get {A} (f : World -> A) : console_only (get f).
Proof. intros w. apply extends_refl. Qed.

Lemma console_only_exit {A} code : console_only (@os_Exit A code).
Proof. intros w. apply extends_refl. Qed.

Lemma console_only_write l text : console_only (write l text).
Proof. intros w. by exists [(l, text)]. Qed.

Lemma console_only_bind {A B} (m : M A) (k : A -> M B) :
  console_only m -> (forall a, console_only (k a)) -> console_only (bind m k).
Proof.
  intros Hm Hk w. unfold bind. specialize (Hm w).
  destruct (m w) as [a w'|code w'|w'] eqn:E; cbn in *; [|done..].
  eapply extends_trans; [exact Hm|apply Hk].
Qed.

Lemma console_only_die {A} message code : console_only (@die A message code).
Proof.
  apply console_only_bind; [apply console_only_write|].
  intros _. apply console_only_exit.
Qed.

Lemma console_only_warn err response :
  console_only (warnWhenRateLimitExceeded err response).
Proof.
  unfold warnWhenRateLimitExceeded.
  destruct (is_nil err); [apply console_only_ret|].
  destruct response as [status|]; [|apply console_only_die].
  destruct (status =? 403); [apply console_only_write|apply console_only_ret].
Qed.

Create HintDb console_only.
#[export] Hint Resolve console_only_ret console_only_get console_only_exit
  console_only_write console_only_die console_only_warn : console_only.

(** One step through a sequence of console-only calls. *)
Ltac console_step :=
  first
    [ apply console_only_bind; [|intros ?]
    | apply console_only_ret
    | apply console_only_get
    | apply console_only_write
    | apply console_only_die
    | apply console_only_warn
    | apply console_only_exit ].

Section UpgradeProperties.
Context `{L : GoLib}.

Lemma console_only_isUpgradeAvailable : console_only isUpgradeAvailable.
Proof.
  unfold isUpgradeAvailable.
  apply console_only_bind; [apply console_only_get|]. intros release.
  destruct release as [status tagName|response].
  - destruct (negb (status =? 200)); [repeat console_step; apply console_only_write|].
    apply console_only_bind; [apply console_only_get|]. intros running.
    destruct (semver_Make running); [|repeat console_step; apply console_only_write].
    destruct (semver_Make tagName); repeat console_step; apply console_only_write.
  - repeat console_step; apply console_only_write.
Qed.

(** C9. [upgrade] with [checkOnly] set leaves the world as it found it, the
    console apart: for every version argument, the empty one too, and
    whatever the release endpoint answers, the installed versions, the
    aliases and the running executable (the whole file system), PATH and
    all the settings are unchanged when the call ends. *)
Theorem upgrade_check_only_changes_nothing (version : string) (w : World) :
  exists msgs,
    final (upgrade true version w) = set_console (console w ++ msgs) w.
Proof.
  enough (Hc : console_only (upgrade true version)) by exact (Hc w).
  unfold upgrade.
  apply console_only_bind; [apply console_only_get|]. intros running.
  destruct (negb (String.eqb version "") && String.eqb running version);
    [apply console_only_write|].
  apply console_only_bind.
  - destruct (String.eqb version ""); [|apply console_only_ret].
    apply console_only_bind; [apply console_only_isUpgradeAvailable|].
    intros [shouldUpgrade latestVersion].
    destruct (negb shouldUpgrade); repeat console_step; apply console_only_write.
  - intros [target|]; [apply console_only_write|apply console_only_ret].
Qed.

End UpgradeProperties.

(** ** The version argument and its fallback *)

Section VersionArgument.
Context `{L : GoLib}.

(** With no version on the command line and none in the environment,
    [install] ends with the exit code for an invalid argument. *)
Lemma install_without_version (fuel : nat) (w : World) :
  getDockerVersionVar w = "" ->
  exists w', install (S fuel) "" w = Exited retCodeInvalidArgument w'
             /\ extends w w'.
Proof.
  intros Hvar. cbn. unfold install_with, bind, get. cbn. rewrite Hvar. cbn.
  eexists. split; [reflexivity|]. eexists [_]; reflexivity.
Qed.

(** An empty version argument stands for the trimmed [DOCKER_VERSION]. *)
Lemma use_substitutes_fallback (fuel : nat) (w : World) :
  use fuel "" w = use fuel (getDockerVersionVar w) w.
Proof.
  unfold use, use_with, bind, get, ret.
  change (String.eqb "" "") with true. cbv iota beta.
  destruct (String.eqb (getDockerVersionVar w) "") eqn:E.
  - apply String.eqb_eq in E. rewrite E. reflexivity.
  - cbv beta iota. rewrite ?E. reflexivity.
Qed.

Lemma install_substitutes_fallback (fuel : nat) (w : World) :
  install fuel "" w = install fuel (getDockerVersionVar w) w.
Proof.
  destruct fuel as [|fuel]; [done|].
  cbn [install]. unfold install_with, bind, get, ret.
  change (String.eqb "" "") with true. cbv iota beta.
  destruct (String.eqb (getDockerVersionVar w) "") eqn:E.
  - apply String.eqb_eq in E. rewrite E. reflexivity.
  - cbv beta iota. rewrite ?E. reflexivity.
Qed.

(** C3. With no version on the command line and an empty [DOCKER_VERSION],
    [install] exits with [retCodeInvalidArgument] (127) and [use] exits with
    [retCodeInvalidOperation] (3), whatever the depth of calls allowed;
    neither changes anything but the console. *)
Theorem use_without_version_exit_code (fuel : nat) (w : World) :
  getDockerVersionVar w = "" ->
  (exists w1, install (S fuel) "" w = Exited retCodeInvalidArgument w1
              /\ extends w w1)
  /\ (exists w2, use fuel "" w = Exited retCodeInvalidOperation w2
                 /\ extends w w2)
  /\ retCodeInvalidOperation <> retCodeInvalidArgument.
Proof.
  intros Hvar. split; [by apply install_without_version|]. split; [|done].
  unfold use, use_with, bind, get. cbn. rewrite Hvar. cbn.
  eexists. split; [reflexivity|]. eexists [_]; reflexivity.
Qed.

End VersionArgument.

Lemma use_without_version_exit_code_witness :
  getDockerVersionVar Sample.bare = ""
  /\ (exists w1, install (L := Sample.lib) 1 "" Sample.bare
                 = Exited retCodeInvalidArgument w1
                 /\ extends Sample.bare w1)
  /\ (exists w2, use (L := Sample.lib) 0 "" Sample.bare
                 = Exited retCodeInvalidOperation w2
                 /\ extends Sample.bare w2)
  /\ retCodeInvalidOperation <> retCodeInvalidArgument.
Proof.
  split; [reflexivity|].
  apply (use_without_version_exit_code (L := Sample.lib) 0 Sample.bare).
  reflexivity.
Defined.

(** ** PATH *)

Lemma removePrevious_eq (w : World) :
  removePreviousDvmVersionFromPath w
  = Returned tt (set_PATH (filter (fun e => managed w e = false) (env_PATH w)) w).
Proof. reflexivity. Qed.

Lemma filter_twice {A} (P : A -> Prop) `{!forall x, Decision (P x)} (l : list A) :
  filter P (filter P l) = filter P l.
Proof.
  induction l as [|x l IH]; [done|].
  rewrite filter_cons. destruct (decide (P x)) as [Hx|Hx]; [|done].
  rewrite filter_cons. destruct (decide (P x)); [|done]. by rewrite IH.
Qed.

(** C8. Stripping the managed entries from PATH a second time changes
    nothing: the call returns the world the first call returned.  After the
    call no entry is managed, and the entries that are not managed are the
    ones of the PATH before, in the same order. *)
Theorem removePrevious_idempotent (w : World) :
  let w1 := final (removePreviousDvmVersionFromPath w) in
  removePreviousDvmVersionFromPath w = Returned tt w1
  /\ removePreviousDvmVersionFromPath w1 = Returned tt w1
  /\ Forall (fun e => managed w e = false) (env_PATH w1)
  /\ filter (fun e => managed w e = false) (env_PATH w1)
     = filter (fun e => managed w e = false) (env_PATH w).
Proof.
  cbn zeta. rewrite removePrevious_eq. cbn [final].
  split; [done|]. split; [|split].
  - rewrite removePrevious_eq. f_equal.
    destruct w; cbn. unfold set_PATH, managed, getVersionDir; cbn.
    f_equal. apply filter_twice.
  - cbn. apply Forall_forall. intros e He.
    by apply list_elem_of_filter in He as [He _].
  - cbn. apply filter_twice.
Qed.

(** ** The remote catalog *)

Lemma sort_elem_of (l : list string) (x : string) : x ∈ Str.sort l <-> x ∈ l.
Proof. unfold Str.sort. by rewrite merge_sort_Permutation. Qed.

(** What [FindStringSubmatch] of the tag pattern finds: the tag is [v]
    followed by a version of the shape, and the group is that version. *)
Lemma tag_found (tag : string) :
  (1 <? length (tagRegex_FindStringSubmatch tag))%nat = true ->
  exists v, tag = String "v" v /\ version_shape v = true
            /\ nth 1 (tagRegex_FindStringSubmatch tag) "" = v.
Proof.
  unfold tagRegex_FindStringSubmatch.
  destruct tag as [|a body]; [done|].
  destruct (Ascii.eqb_spec a "v") as [->|Hne].
  - destruct (version_shape body) eqn:Hs; [|done]. intros _. by exists body.
  - destruct a as [[] [] [] [] [] [] [] []]; done.
Qed.

Lemma tag_found_intro (v : string) :
  version_shape v = true ->
  tagRegex_FindStringSubmatch (String "v" v) = [String "v" v; v].
Proof. intros Hs. cbn. by rewrite Hs. Qed.

Section Catalog.
Context `{L : GoLib}.

(** The versions the loop of [getAvailableVersions] adds: those of the tags
    of the shape that the pattern matches. *)
Lemma available_loop_elem_of (m : string -> bool) (tags acc : list string) (v : string) :
  v ∈ available_loop m tags acc
  <-> v ∈ acc \/ (String "v" v ∈ tags /\ version_shape v = true
                  /\ m (String "v" v) = true).
Proof.
  revert acc. induction tags as [|tag tags IH]; intros acc; cbn [available_loop].
  - split; [by left|]. intros [?|[Hin _]]; [done|]. by apply elem_of_nil in Hin.
  - destruct ((1 <? length (tagRegex_FindStringSubmatch tag))%nat) eqn:Hf; cbn [andb].
    + destruct (tag_found tag Hf) as (v' & -> & Hs & ->).
      destruct (m (String "v" v')) eqn:Hm.
      * rewrite IH, elem_of_app, list_elem_of_singleton, elem_of_cons.
        split.
        -- intros [[?| ->]|(?&?&?)]; [by left|right|right]; [by eauto|by eauto].
        -- intros [?|([E|?]&?&?)]; [by left; left|left; right; congruence|by right].
      * rewrite IH, elem_of_cons. split.
        -- intros [?|(?&?&?)]; [by left|right]; by eauto.
        -- intros [?|([E|?]&?&Hm')]; [by left| |by right].
           assert (v = v') as -> by congruence. congruence.
    + rewrite IH, elem_of_cons. split.
      * intros [?|(?&?&?)]; [by left|right]; by eauto.
      * intros [?|([E|?]&Hs&?)]; [by left| |by right].
        subst tag. rewrite (tag_found_intro v Hs) in Hf. done.
Qed.

(** When [getAvailableVersions] returns: the tags were fetched with status
    200 and the pattern compiles; the world is untouched. *)
Lemma getAvailableVersions_Returned (pattern : string) (w w' : World) (vs : list string) :
  getAvailableVersions pattern w = Returned vs w'
  <-> exists tags m,
        docker_tags w = Response 200 tags /\ regexp_Compile pattern = Some m
        /\ vs = Str.sort (available_loop m tags []) /\ w' = w.
Proof.
  unfold getAvailableVersions, bind, get.
  destruct (docker_tags w) as [status tags|response] eqn:Ht.
  - destruct (status =? 200) eqn:Hst; cbn [negb].
    + apply Z.eqb_eq in Hst as ->.
      destruct (regexp_Compile pattern) as [m|] eqn:Hc.
      * cbn. split.
        -- intros [= <- <-]. by exists tags, m.
        -- intros (tags' & m' & [= <-] & [= <-] & -> & ->). done.
      * cbn. split; [done|]. by intros (? & ? & _ & ? & _).
    + cbn. split; [done|]. intros (? & ? & [= -> _] & _). done.
  - split.
    + unfold warnWhenRateLimitExceeded. cbn.
      destruct response as [status|]; [|done].
      by destruct (status =? 403).
    + by intros (? & ? & ? & _).
Qed.

(** A version is reported exactly when its tag, [v] followed by the version,
    is among the fetched tags, the version has the shape of the tag pattern
    and the compiled pattern matches the tag. *)
Lemma getAvailableVersions_elem_of (pattern : string) (w w' : World)
    (vs tags : list string) (m : string -> bool) (v : string) :
  getAvailableVersions pattern w = Returned vs w' ->
  docker_tags w = Response 200 tags ->
  regexp_Compile pattern = Some m ->
  v ∈ vs <-> String "v" v ∈ tags /\ version_shape v = true
             /\ m (String "v" v) = true.
Proof.
  intros Hr Ht Hc.
  apply getAvailableVersions_Returned in Hr as (tags' & m' & Ht' & Hc' & -> & _).
  rewrite Ht in Ht'. injection Ht' as <-. rewrite Hc in Hc'. injection Hc' as <-.
  rewrite sort_elem_of, available_loop_elem_of. split; [|by right].
  intros [Hnil|?]; [|done]. by apply elem_of_nil in Hnil.
Qed.

(** A release whose major number has a zero among its digits is never
    reported, whatever the tags and the pattern. *)
Lemma getAvailableVersions_never_10 (pattern : string) (w w' : World) (vs : list string) :
  getAvailableVersions pattern w = Returned vs w' -> "10.0.0" ∉ vs.
Proof.
  intros Hr Hin.
  destruct (proj1 (getAvailableVersions_Returned _ _ _ _) Hr)
    as (tags & m & Ht & Hc & _).
  destruct (proj1 (getAvailableVersions_elem_of _ _ _ _ _ _ _ Hr Ht Hc) Hin)
    as (_ & Hs & _).
  done.
Qed.

End Catalog.

(** C2. At the tag list [v1.10.0], [v10.0.0], [v0.9.0], [v1.9.1],
    [v1.10.0-rc1], [v11.2.3] and the empty pattern, [getAvailableVersions]
    reports 1.10.0, 1.9.1 and 11.2.3: the tag [v10.0.0], of the shape
    vMAJOR.MINOR.PATCH with MAJOR 10, contributes nothing, because the
    pattern of the program takes the digits of MAJOR from 1 to 9 only. *)
Theorem getAvailableVersions_skips_major_10 :
  docker_tags Sample.two_releases
  = Response 200 ["v1.10.0"; "v10.0.0"; "v0.9.0"; "v1.9.1"; "v1.10.0-rc1"; "v11.2.3"]
  /\ getAvailableVersions (L := Sample.lib) "" Sample.two_releases
     = Returned ["1.10.0"; "1.9.1"; "11.2.3"] Sample.two_releases
  /\ tagRegex_FindStringSubmatch "v10.0.0" = [].
Proof. split; [reflexivity|]. split; vm_compute; reflexivity. Qed.

Section VersionExists.
Context `{L : GoLib}.

(** C5, as the program has it.  [versionExists] hands the version to
    [getAvailableVersions] as its pattern.  When the catalog can be fetched
    and the version compiles as a regular expression, [versionExists]
    returns, and returns [true] exactly for ["experimental"] and for the
    members of [getAvailableVersions ""]; when the version does not compile
    (and is not ["experimental"]), the process exits with
    [retCodeInvalidOperation] instead of returning. *)
Theorem versionExists_iff_member (v : string) (w w0 : World) (avail : list string) :
  regexp_empty_matches_all ->
  regexp_version_matches_own_tag ->
  getAvailableVersions "" w = Returned avail w0 ->
  match regexp_Compile v with
  | Some _ =>
      exists b, versionExists v w = Returned b w
                /\ (b = true <-> v = "experimental" \/ v ∈ avail)
  | None =>
      v <> "experimental" ->
      exists w', versionExists v w = Exited retCodeInvalidOperation w'
                 /\ extends w w'
  end.
Proof.
  intros Lempty Lself Havail.
  destruct (proj1 (getAvailableVersions_Returned _ _ _ _) Havail)
    as (tags & m0 & Ht & Hc0 & _).
  unfold versionExists.
  destruct (regexp_Compile v) as [m|] eqn:Hc.
  - destruct (String.eqb_spec v "experimental") as [->|Hne].
    { exists true. split; [done|]. split; [by left|done]. }
    assert (Hr : getAvailableVersions v w
                 = Returned (Str.sort (available_loop m tags [])) w).
    { apply getAvailableVersions_Returned. by exists tags, m. }
    unfold bind. rewrite Hr. eexists. split; [reflexivity|].
    rewrite existsb_exists. split.
    + intros (x & Hx & ->%String.eqb_eq). right.
      apply list_elem_of_In in Hx.
      destruct (proj1 (getAvailableVersions_elem_of _ _ _ _ _ _ _ Hr Ht Hc) Hx)
        as (Hin & Hs & _).
      apply (getAvailableVersions_elem_of _ _ _ _ _ _ _ Havail Ht Hc0).
      split; [done|]. split; [done|]. by apply Lempty.
    + intros [?|Hin]; [done|]. exists v. split; [|by apply String.eqb_refl].
      apply list_elem_of_In.
      destruct (proj1 (getAvailableVersions_elem_of _ _ _ _ _ _ _ Havail Ht Hc0) Hin)
        as (Hin' & Hs & _).
      apply (getAvailableVersions_elem_of _ _ _ _ _ _ _ Hr Ht Hc).
      split; [done|]. split; [done|]. by apply Lself.
  - intros Hne. apply String.eqb_neq in Hne. rewrite Hne.
    unfold bind, getAvailableVersions, bind, get. rewrite Ht. cbn. rewrite Hc. cbn.
    eexists. split; [reflexivity|]. eexists [_]; reflexivity.
Qed.

End VersionExists.

Lemma Sample_regexp_empty : regexp_empty_matches_all (L := Sample.lib).
Proof. intros m s [= <-]. by destruct s. Qed.

Lemma dot_prefix_refl (v : string) : Sample.dot_prefix v v = true.
Proof.
  induction v as [|a v IH]; [done|]. cbn.
  by rewrite Ascii.eqb_refl, orb_true_r, IH.
Qed.

Lemma Sample_regexp_version : regexp_version_matches_own_tag (L := Sample.lib).
Proof.
  intros v m _. cbn. unfold Sample.regexp_Compile.
  destruct (Str.has_any _ v); [done|]. intros [= <-].
  cbn [Sample.dot_search]. apply orb_true_iff. right.
  destruct v; cbn [Sample.dot_search]; by rewrite dot_prefix_refl.
Qed.

Lemma versionExists_iff_member_witness :
  regexp_empty_matches_all (L := Sample.lib)
  /\ regexp_version_matches_own_tag (L := Sample.lib)
  /\ getAvailableVersions (L := Sample.lib) "" Sample.two_releases
     = Returned ["1.10.0"; "1.9.1"; "11.2.3"] Sample.two_releases
  /\ match regexp_Compile (GoLib := Sample.lib) "1.9.1" with
     | Some _ =>
         exists b, versionExists (L := Sample.lib) "1.9.1" Sample.two_releases
                   = Returned b Sample.two_releases
                   /\ (b = true <-> "1.9.1" = "experimental"
                                    \/ "1.9.1" ∈ ["1.10.0"; "1.9.1"; "11.2.3"])
     | None =>
         "1.9.1" <> "experimental" ->
         exists w', versionExists (L := Sample.lib) "1.9.1" Sample.two_releases
                    = Exited retCodeInvalidOperation w'
                    /\ extends Sample.two_releases w'
     end.
Proof.
  split; [exact Sample_regexp_empty|]. split; [exact Sample_regexp_version|].
  split; [vm_compute; reflexivity|].
  apply (versionExists_iff_member (L := Sample.lib) "1.9.1" Sample.two_releases
           Sample.two_releases ["1.10.0"; "1.9.1"; "11.2.3"]
           Sample_regexp_empty Sample_regexp_version).
  vm_compute; reflexivity.
Defined.

(** C5, as stated, fails at the version ["("]: the catalog is fetched and
    does not hold it, and [versionExists] does not return [false]: the
    process exits with [retCodeInvalidOperation] (3), because ["("] is handed
    on as the pattern and does not compile. *)
Lemma versionExists_bad_pattern_exits :
  getAvailableVersions (L := Sample.lib) "" Sample.two_releases
  = Returned ["1.10.0"; "1.9.1"; "11.2.3"] Sample.two_releases
  /\ "(" <> "experimental"
  /\ ("(" ∉ ["1.10.0"; "1.9.1"; "11.2.3"])
  /\ returned (versionExists (L := Sample.lib) "(" Sample.two_releases) = None
  /\ exit_code (versionExists (L := Sample.lib) "(" Sample.two_releases)
     = Some retCodeInvalidOperation.
Proof.
  split; [vm_compute; reflexivity|]. split; [done|].
  split; [by intros Hin; repeat (apply elem_of_cons in Hin as [?|Hin]; [done|]);
          apply elem_of_nil in Hin|].
  split; vm_compute; reflexivity.
Qed.

(** ** The active version *)

Lemma set_PATH_back (p : list string) (w : World) :
  set_PATH (env_PATH w) (set_PATH p w) = w.
Proof. by destruct w. Qed.

(** [getSystemDockerPath] puts PATH back as it found it. *)
Lemma getSystemDockerPath_world (w : World) :
  exists r, getSystemDockerPath w = Returned r w.
Proof.
  unfold getSystemDockerPath, bind, getPath, get, removePreviousDvmVersionFromPath,
    bind, get, removePath, modify, exec_LookPath, get, setPath, modify, ret.
  cbn [env_PATH set_PATH]. eexists. by rewrite set_PATH_back.
Qed.

Lemma console_only_getSystemDockerPath : console_only getSystemDockerPath.
Proof.
  intros w. destruct (getSystemDockerPath_world w) as [r ->]. apply extends_refl.
Qed.

Lemma console_only_getDockerVersion path : console_only (getDockerVersion path).
Proof.
  unfold getDockerVersion. apply console_only_bind; [apply console_only_get|].
  intros raw. apply console_only_bind; [apply console_only_write|]. intros _.
  destruct (_ <? _)%nat; apply console_only_ret.
Qed.

Lemma console_only_getExperimentalDockerPath : console_only getExperimentalDockerPath.
Proof. unfold getExperimentalDockerPath, os_Stat. repeat console_step. Qed.

Lemma console_only_getSystemDockerVersion : console_only getSystemDockerVersion.
Proof.
  unfold getSystemDockerVersion.
  apply console_only_bind; [apply console_only_getSystemDockerPath|].
  intros [p err]. destruct (is_nil err);
    [apply console_only_getDockerVersion|apply console_only_ret].
Qed.

Lemma console_only_getExperimentalDockerVersion :
  console_only getExperimentalDockerVersion.
Proof.
  unfold getExperimentalDockerVersion.
  apply console_only_bind; [apply console_only_getExperimentalDockerPath|].
  intros [p err]. destruct (is_nil err);
    [apply console_only_getDockerVersion|apply console_only_ret].
Qed.

Lemma console_only_getCurrentDockerVersion : console_only getCurrentDockerVersion.
Proof.
  unfold getCurrentDockerVersion, getCurrentDockerPath, exec_LookPath.
  apply console_only_bind; [apply console_only_get|]. intros [p err].
  destruct (is_nil err); [|apply console_only_ret].
  apply console_only_bind; [apply console_only_getDockerVersion|]. intros [c e].
  apply console_only_bind; [apply console_only_getSystemDockerPath|]. intros [sp e'].
  apply console_only_bind; [apply console_only_getExperimentalDockerPath|].
  intros [ep e'']. apply console_only_ret.
Qed.

#[export] Hint Resolve console_only_getSystemDockerPath console_only_getDockerVersion
  console_only_getExperimentalDockerPath console_only_getSystemDockerVersion
  console_only_getExperimentalDockerVersion console_only_getCurrentDockerVersion
  : console_only.

Lemma returns_bind {A B} (m : M A) (k : A -> M B) :
  returns m -> (forall a, returns (k a)) -> returns (bind m k).
Proof.
  intros Hm Hk w. unfold bind. destruct (Hm w) as (a & w' & ->). apply Hk.
Qed.

Lemma returns_ret {A} (a : A) : returns (ret a).
Proof. intros w. by eexists _, _. Qed.

Lemma returns_get {A} (f : World -> A) : returns (get f).
Proof. intros w. by eexists _, _. Qed.

Lemma returns_write l text : returns (write l text).
Proof. intros w. by eexists _, _. Qed.

Lemma returns_getDockerVersion path : returns (getDockerVersion path).
Proof.
  unfold getDockerVersion. apply returns_bind; [apply returns_get|].
  intros raw. apply returns_bind; [apply returns_write|]. intros _.
  destruct (_ <? _)%nat; apply returns_ret.
Qed.

Lemma returns_getSystemDockerPath : returns getSystemDockerPath.
Proof. intros w. destruct (getSystemDockerPath_world w) as [r ->]. by eexists _, _. Qed.

Lemma returns_getExperimentalDockerPath : returns getExperimentalDockerPath.
Proof.
  unfold getExperimentalDockerPath, os_Stat.
  apply returns_bind; [apply returns_get|]. intros p.
  apply returns_bind; [apply returns_get|]. intros e. apply returns_ret.
Qed.

Lemma returns_getSystemDockerVersion : returns getSystemDockerVersion.
Proof.
  unfold getSystemDockerVersion.
  apply returns_bind; [apply returns_getSystemDockerPath|].
  intros [p err]. destruct (is_nil err);
    [apply returns_getDockerVersion|apply returns_ret].
Qed.

Lemma returns_getExperimentalDockerVersion : returns getExperimentalDockerVersion.
Proof.
  unfold getExperimentalDockerVersion.
  apply returns_bind; [apply returns_getExperimentalDockerPath|].
  intros [p err]. destruct (is_nil err);
    [apply returns_getDockerVersion|apply returns_ret].
Qed.

Lemma returns_getCurrentDockerVersion : returns getCurrentDockerVersion.
Proof.
  unfold getCurrentDockerVersion, getCurrentDockerPath, exec_LookPath.
  apply returns_bind; [apply returns_get|]. intros [p err].
  destruct (is_nil err); [|apply returns_ret].
  apply returns_bind; [apply returns_getDockerVersion|]. intros [c e].
  apply returns_bind; [apply returns_getSystemDockerPath|]. intros [sp e'].
  apply returns_bind; [apply returns_getExperimentalDockerPath|].
  intros [ep e'']. apply returns_ret.
Qed.

(** A call that returns and only writes to the console. *)
Lemma returns_console_only {A} (m : M A) (w : World) :
  returns m -> console_only m ->
  exists a w', m w = Returned a w' /\ extends w w'.
Proof.
  intros Hr Hc. destruct (Hr w) as (a & w' & E). exists a, w'. split; [done|].
  specialize (Hc w). by rewrite E in Hc.
Qed.

Lemma bind_returned {A B} (m : M A) (k : A -> M B) (w w' : World) (a : A) :
  m w = Returned a w' -> bind m k w = k a w'.
Proof. intros E. unfold bind. by rewrite E. Qed.

(** No client on PATH: the lookup error is handed on, nothing is written. *)
Lemma getCurrentDockerVersion_not_found (w : World) (p e : string) :
  exec_LookPath "docker" w = Returned (p, Some e) w ->
  getCurrentDockerVersion w = Returned ("", Some e) w.
Proof.
  intros Hl. unfold getCurrentDockerVersion, getCurrentDockerPath.
  by rewrite (bind_returned _ _ _ _ _ Hl).
Qed.

(** A client on PATH: a label is returned without error, whether or not the
    version line of the client can be read. *)
Lemma getCurrentDockerVersion_found (w : World) (p : string) :
  exec_LookPath "docker" w = Returned (p, None) w ->
  exists label w1,
    getCurrentDockerVersion w = Returned (label, None) w1 /\ extends w w1.
Proof.
  intros Hl.
  assert (E : exists label w1, getCurrentDockerVersion w = Returned (label, None) w1).
  { unfold getCurrentDockerVersion, getCurrentDockerPath.
    rewrite (bind_returned _ _ _ _ _ Hl). cbn [is_nil].
    destruct (returns_getDockerVersion p w) as ([c e] & w1 & E1).
    rewrite (bind_returned _ _ _ _ _ E1).
    destruct (returns_getSystemDockerPath w1) as ([sp e1] & w2 & E2).
    rewrite (bind_returned _ _ _ _ _ E2).
    destruct (returns_getExperimentalDockerPath w2) as ([ep e2] & w3 & E3).
    rewrite (bind_returned _ _ _ _ _ E3). by eexists _, _. }
  destruct E as (label & w1 & E). exists label, w1. split; [done|].
  pose proof (console_only_getCurrentDockerVersion w) as Hc. by rewrite E in Hc.
Qed.

(** [current] with no client on PATH: the warning N/A. *)
Lemma current_not_found (w : World) (p e : string) :
  exec_LookPath "docker" w = Returned (p, Some e) w ->
  current w = Returned tt (set_console (console w ++ [(Warning, "N/A")]) w).
Proof.
  intros Hl. unfold current.
  by rewrite (bind_returned _ _ _ _ _ (getCurrentDockerVersion_not_found _ _ _ Hl)).
Qed.

(** [current] with a client on PATH: the label is written as information;
    the error of [getDockerVersion] never reaches [current]. *)
Lemma current_found (w : World) (p : string) :
  exec_LookPath "docker" w = Returned (p, None) w ->
  exists label w1,
    getCurrentDockerVersion w = Returned (label, None) w1
    /\ extends w w1
    /\ current w = Returned tt (set_console (console w1 ++ [(Info, label)]) w1).
Proof.
  intros Hl. destruct (getCurrentDockerVersion_found w p Hl) as (label & w1 & E & Hx).
  exists label, w1. split; [done|]. split; [done|].
  unfold current. by rewrite (bind_returned _ _ _ _ _ E).
Qed.

(** C6. The system client of [Sample.odd_system_client] is found on PATH and
    prints a version line without comma, which [getDockerVersion] cannot
    read.  [current] does not report N/A: it writes the label
    ["system ()"] as information. *)
Theorem current_unreadable_version_label :
  returned (exec_LookPath "docker" Sample.odd_system_client)
  = Some ("/usr/bin/docker", None)
  /\ returned (getDockerVersion "/usr/bin/docker" Sample.odd_system_client)
     = Some ("", Some "Could not detect docker version.")
  /\ returned (current Sample.odd_system_client) = Some tt
  /\ filter (fun m => fst m <> Debug) (console (final (current Sample.odd_system_client)))
     = [(Info, "system ()")].
Proof. repeat split; vm_compute; reflexivity. Qed.

(** ** Uninstalling *)

(** The guard of [uninstall]: when the label of the active client is the
    version asked for, the process exits with [retCodeInvalidOperation] and
    the file system is as before. *)
Lemma uninstall_refuses_reported_label (w w1 : World) (version : string)
    (err : option string) :
  version <> "" ->
  getCurrentDockerVersion w = Returned (version, err) w1 ->
  exists w', uninstall version w = Exited retCodeInvalidOperation w'
             /\ extends w w' /\ fs w' = fs w.
Proof.
  intros Hne E. apply String.eqb_neq in Hne.
  unfold uninstall. rewrite Hne. rewrite (bind_returned _ _ _ _ _ E).
  rewrite String.eqb_refl. eexists. split; [reflexivity|].
  pose proof (console_only_getCurrentDockerVersion w) as Hc. rewrite E in Hc.
  assert (Hx : extends w (set_console (console w1 ++
    [(Error, "Cannot uninstall the currently active Docker version.")]) w1)).
  { eapply extends_trans; [exact Hc|]. eexists [_]; reflexivity. }
  split; [exact Hx|]. by apply extends_fs.
Qed.

(** When the client found on PATH is the experimental binary, the label is
    ["experimental (...)"], never ["experimental"]. *)
Lemma experimental_label (w w1 : World) (label : string) (err : option string) :
  exec_LookPath "docker" w
  = Returned (Filepath.Join [getVersionDir w "experimental"; getBinaryName w], None) w ->
  getCurrentDockerVersion w = Returned (label, err) w1 ->
  String.eqb label "experimental" = false.
Proof.
  intros Hl. unfold getCurrentDockerVersion, getCurrentDockerPath.
  rewrite (bind_returned _ _ _ _ _ Hl). cbn [is_nil].
  set (p := Filepath.Join [getVersionDir w "experimental"; getBinaryName w]).
  destruct (returns_console_only _ w (returns_getDockerVersion p)
              (console_only_getDockerVersion p)) as ([c e] & w2 & E1 & X1).
  rewrite (bind_returned _ _ _ _ _ E1).
  destruct (returns_console_only _ w2 returns_getSystemDockerPath
              console_only_getSystemDockerPath) as ([sp e1] & w3 & E2 & X2).
  rewrite (bind_returned _ _ _ _ _ E2).
  unfold getExperimentalDockerPath, bind, get, os_Stat, get, ret.
  assert (Hd : dvmDir w3 = dvmDir w).
  { by rewrite (extends_dvmDir _ _ X2), (extends_dvmDir _ _ X1). }
  assert (Hb : binaryFileExt w3 = binaryFileExt w).
  { by rewrite (extends_binaryFileExt _ _ X2), (extends_binaryFileExt _ _ X1). }
  unfold p, getVersionDir, getBinaryName. rewrite Hd, Hb, String.eqb_refl.
  intros [= <- _ _]. by destruct (String.eqb _ sp).
Qed.

(** Uninstalling ["experimental"] while the experimental binary is the
    active client is never refused. *)
Lemma uninstall_active_experimental_not_refused (w : World) :
  exec_LookPath "docker" w
  = Returned (Filepath.Join [getVersionDir w "experimental"; getBinaryName w], None) w ->
  exit_code (uninstall "experimental" w) <> Some retCodeInvalidOperation.
Proof.
  intros Hl. unfold uninstall. cbn [String.eqb Ascii.eqb Bool.eqb].
  destruct (returns_getCurrentDockerVersion w) as ([label err] & w1 & E).
  rewrite (bind_returned _ _ _ _ _ E).
  rewrite (experimental_label _ _ _ _ Hl E).
  unfold bind, get, os_Stat, get, os_RemoveAll, bind, get, modify, ret, id.
  destruct (Stat _ (fs w1)); cbn; [|done].
  destruct (decide (_ ∈ denied w1)); cbn; done.
Qed.

(** C1. In [Sample.experimental_active] the experimental binary is the
    client found on PATH and the active version is reported as
    ["experimental (1.11.0-dev)"].  [uninstall "experimental"] does not exit
    with [retCodeInvalidOperation]: it returns, and the directory of the
    experimental build and the binary in use are gone from the file system. *)
Theorem uninstall_removes_active_experimental :
  let w := Sample.experimental_active in
  let dir := "/home/u/.dvm/bin/docker/experimental" in
  returned (exec_LookPath "docker" w) = Some (dir +:+ "/docker", None)
  /\ returned (getCurrentDockerVersion w) = Some ("experimental (1.11.0-dev)", None)
  /\ fs w !! dir = Some Dir
  /\ fs w !! (dir +:+ "/docker") = Some (Sample.docker "1.11.0-dev")
  /\ returned (uninstall "experimental" w) = Some tt
  /\ exit_code (uninstall "experimental" w) = None
  /\ fs (final (uninstall "experimental" w)) !! dir = None
  /\ fs (final (uninstall "experimental" w)) !! (dir +:+ "/docker") = None.
Proof. cbv zeta. repeat split; vm_compute; reflexivity. Qed.

(** ** Strings and paths *)

Lemma append_cons (a : ascii) (s t : string) : String a s +:+ t = String a (s +:+ t).
Proof. reflexivity. Qed.

Lemma append_empty_l (t : string) : "" +:+ t = t.
Proof. reflexivity. Qed.

Lemma append_empty_r (s : string) : s +:+ "" = s.
Proof. induction s as [|a s IH]; [done|]. by rewrite append_cons, IH. Qed.

Lemma append_assoc (s t u : string) : (s +:+ t) +:+ u = s +:+ t +:+ u.
Proof. induction s as [|a s IH]; [done|]. by rewrite !append_cons, IH. Qed.

Lemma append_eq_empty (s t : string) : s +:+ t = "" -> s = "" /\ t = "".
Proof. by destruct s. Qed.

Lemma has_byte_append (c : ascii) (s t : string) :
  Str.has_byte c (s +:+ t) = Str.has_byte c s || Str.has_byte c t.
Proof.
  induction s as [|a s IH]; [done|].
  rewrite append_cons. cbn. by rewrite IH, orb_assoc.
Qed.

Lemma has_any_append (chars s t : string) :
  Str.has_any chars (s +:+ t) = Str.has_any chars s || Str.has_any chars t.
Proof.
  induction s as [|a s IH]; [done|].
  rewrite append_cons. cbn. by rewrite IH, orb_assoc.
Qed.

(** A prefix of a text without the byte [c] is without it. *)
Lemma has_byte_prefix (c : ascii) (p s : string) :
  Str.has_prefix p s = true -> Str.has_byte c s = false -> Str.has_byte c p = false.
Proof.
  revert s. induction p as [|a p IH]; intros [|b s]; cbn; try done.
  intros [Hab Hp]%andb_true_iff [Hb Hs]%orb_false_iff.
  apply Ascii.eqb_eq in Hab as ->. rewrite Hb. cbn. by eapply IH.
Qed.

Lemma has_any_prefix (chars p s : string) :
  Str.has_prefix p s = true -> Str.has_any chars s = false ->
  Str.has_any chars p = false.
Proof.
  revert s. induction p as [|a p IH]; intros [|b s]; cbn; try done.
  intros [Hab Hp]%andb_true_iff [Hb Hs]%orb_false_iff.
  apply Ascii.eqb_eq in Hab as ->. rewrite Hb. cbn. by eapply IH.
Qed.

Lemma has_prefix_append (p s : string) : Str.has_prefix p (p +:+ s) = true.
Proof.
  induction p as [|a p IH]; [done|].
  rewrite append_cons. cbn. by rewrite Ascii.eqb_refl, IH.
Qed.

Lemma split_nonempty (sep : ascii) (s : string) : Str.split sep s <> [].
Proof.
  induction s as [|a s IH]; [done|]. cbn.
  destruct (Ascii.eqb a sep); [done|]. by destruct (Str.split sep s).
Qed.

(** A text without the separator is its own single part. *)
Lemma split_without_sep (sep : ascii) (s : string) :
  Str.has_byte sep s = false -> Str.split sep s = [s].
Proof.
  induction s as [|a s IH]; [done|]. cbn.
  intros [Ha Hs]%orb_false_iff. rewrite Ha, (IH Hs). done.
Qed.

Lemma split_append_sep (sep : ascii) (s t : string) :
  Str.has_byte sep s = false ->
  Str.split sep (s +:+ String sep t) = s :: Str.split sep t.
Proof.
  induction s as [|a s IH].
  - intros _. rewrite append_empty_l. cbn. by rewrite Ascii.eqb_refl.
  - cbn. intros [Ha Hs]%orb_false_iff. rewrite append_cons. cbn.
    by rewrite Ha, (IH Hs).
Qed.

(** Joining the parts of a text gives the text back. *)
Lemma join_split (sep : ascii) (s : string) :
  Str.join (String sep "") (Str.split sep s) = s.
Proof.
  induction s as [|a s IH]; [done|]. cbn [Str.split].
  destruct (Ascii.eqb_spec a sep) as [->|Hne].
  - pose proof (split_nonempty sep s) as Hn.
    destruct (Str.split sep s) as [|h t] eqn:E; [done|].
    cbn [Str.join]. cbn [Str.join] in IH. by rewrite IH.
  - destruct (Str.split sep s) as [|h t] eqn:E.
    + by destruct (split_nonempty sep s).
    + destruct t as [|h' t']; cbn [Str.join] in *.
      * by rewrite IH.
      * rewrite append_cons. by rewrite IH.
Qed.

Lemma join_cons (sep e : string) (l : list string) :
  l <> [] -> Str.join sep (e :: l) = e +:+ sep +:+ Str.join sep l.
Proof. by destruct l. Qed.

(** Splitting the join of parts without separator gives the parts back. *)
Lemma split_join (sep : ascii) (l : list string) :
  l <> [] -> Forall (fun e => Str.has_byte sep e = false) l ->
  Str.split sep (Str.join (String sep "") l) = l.
Proof.
  induction l as [|e l IH]; [done|]. intros _ Hall.
  apply Forall_cons in Hall as [He Hl].
  destruct l as [|e' l'].
  - cbn. by apply split_without_sep.
  - rewrite join_cons by done. rewrite append_cons, append_empty_l.
    rewrite (split_append_sep sep e _ He). f_equal. by apply IH.
Qed.

Lemma join_app (sep : string) (l1 l2 : list string) :
  l1 <> [] -> l2 <> [] ->
  Str.join sep (l1 ++ l2) = Str.join sep l1 +:+ sep +:+ Str.join sep l2.
Proof.
  intros H1 H2. induction l1 as [|e l1 IH]; [done|].
  destruct l1 as [|e' l1'].
  - cbn [app]. by rewrite join_cons.
  - change ((e :: e' :: l1') ++ l2) with (e :: (e' :: l1') ++ l2).
    rewrite join_cons by done. rewrite IH by done.
    rewrite (join_cons sep e (e' :: l1')) by done. by rewrite !append_assoc.
Qed.

Lemma regular_no_slash (e : string) : regular e = true -> Str.has_byte "/" e = false.
Proof. unfold regular. intros H. by destruct (Str.has_byte "/" e); rewrite ?andb_false_r in H. Qed.

Lemma regular_nonempty (e : string) : regular e = true -> e <> "".
Proof. by intros H ->. Qed.

(** A name followed by a star is a regular element when the name has no
    separator. *)
Lemma regular_star (p : string) :
  Str.has_byte "/" p = false -> regular (p +:+ "*") = true.
Proof.
  intros Hp. unfold regular. rewrite has_byte_append, Hp.
  destruct p as [|a [|b [|c p]]]; rewrite ?append_cons, ?append_empty_l.
  - done.
  - cbn. by destruct a as [[] [] [] [] [] [] [] []].
  - cbn. by destruct (Ascii.eqb a "."), (Ascii.eqb b ".").
  - cbn. by destruct (Ascii.eqb a "."), (Ascii.eqb b ".").
Qed.

Lemma clean_elems_regular (rooted : bool) (elems st : list string) (ups : nat) :
  Forall (fun e => regular e = true) elems ->
  Filepath.clean_elems rooted elems ups st = repeat ".." ups ++ rev st ++ elems.
Proof.
  revert st. induction elems as [|e elems IH]; intros st Hall; cbn.
  - by rewrite app_nil_r.
  - apply Forall_cons in Hall as [He Hall]. unfold regular in He.
    unfold Filepath.is_dot, Filepath.is_dotdot.
    destruct (String.eqb e ""); [done|]. destruct (String.eqb e "."); [done|].
    destruct (String.eqb e ".."); [done|]. cbn.
    rewrite (IH _ Hall). cbn. by rewrite <- !app_assoc.
Qed.

(** A path made of a separator and regular elements is clean. *)
Lemma Clean_absolute (elems : list string) :
  elems <> [] -> Forall (fun e => regular e = true) elems ->
  Filepath.Clean ("/" +:+ Str.join "/" elems) = "/" +:+ Str.join "/" elems.
Proof.
  intros Hne Hall. unfold Filepath.Clean.
  change ("/" +:+ Str.join "/" elems) with (String "/" (Str.join "/" elems)).
  cbn [String.eqb Str.has_prefix Ascii.eqb Bool.eqb andb Str.split].
  rewrite split_join; [|done|].
  2:{ eapply Forall_impl; [exact Hall|]. intros e. apply regular_no_slash. }
  cbn [Filepath.clean_elems String.eqb orb].
  rewrite clean_elems_regular by done. cbn. done.
Qed.

(** What [clean_absolute] says of a path. *)
Lemma clean_absolute_elems (path : string) :
  clean_absolute path = true ->
  exists elems, elems <> [] /\ Forall (fun e => regular e = true) elems
                /\ path = "/" +:+ Str.join "/" elems.
Proof.
  unfold clean_absolute. intros H.
  pose proof (join_split "/" path) as Hj.
  destruct (Str.split "/" path) as [|[|] [|e elems]]; try done.
  exists (e :: elems). split; [done|]. split.
  - apply Forall_forall. intros x Hx. apply list_elem_of_In in Hx.
    by apply (proj1 (forallb_forall regular (e :: elems)) H).
  - rewrite <- Hj. reflexivity.
Qed.

(** Joining a clean absolute path with regular elements puts them behind it,
    with separators. *)
Lemma Join_clean_absolute (root : string) (elems : list string) :
  clean_absolute root = true ->
  elems <> [] -> Forall (fun e => regular e = true) elems ->
  Filepath.Join (root :: elems) = root +:+ "/" +:+ Str.join "/" elems.
Proof.
  intros (segs & Hne & Hsegs & ->)%clean_absolute_elems Hel Hall.
  cbn [Filepath.Join]. rewrite append_cons, append_empty_l. cbn [String.eqb].
  replace (Str.join "/" (String "/" (Str.join "/" segs) :: elems))
    with ("/" +:+ Str.join "/" (segs ++ elems)).
  - rewrite Clean_absolute.
    + rewrite join_app by done. by rewrite append_cons, append_empty_l.
    + by destruct segs.
    + by apply Forall_app.
  - rewrite join_app by done. destruct elems; [done|].
    cbn [Str.join]. by rewrite !append_cons, !append_empty_l.
Qed.

Lemma clean_absolute_intro (elems : list string) :
  elems <> [] -> Forall (fun e => regular e = true) elems ->
  clean_absolute ("/" +:+ Str.join "/" elems) = true.
Proof.
  intros Hne Hall. unfold clean_absolute.
  change ("/" +:+ Str.join "/" elems) with (String "/" (Str.join "/" elems)).
  cbn [Str.split Ascii.eqb Bool.eqb].
  rewrite split_join; [|done|].
  2:{ eapply Forall_impl; [exact Hall|]. intros e. apply regular_no_slash. }
  destruct elems as [|e elems]; [done|].
  apply forallb_forall. intros x Hx%list_elem_of_In.
  by apply (proj1 (Forall_forall _ _) Hall).
Qed.

Lemma clean_absolute_append (root : string) (elems : list string) :
  clean_absolute root = true ->
  elems <> [] -> Forall (fun e => regular e = true) elems ->
  clean_absolute (root +:+ "/" +:+ Str.join "/" elems) = true.
Proof.
  intros (segs & Hne & Hsegs & ->)%clean_absolute_elems Hel Hall.
  replace (("/" +:+ Str.join "/" segs) +:+ "/" +:+ Str.join "/" elems)
    with ("/" +:+ Str.join "/" (segs ++ elems)).
  - apply clean_absolute_intro; [by destruct segs|by apply Forall_app].
  - rewrite join_app by done. by rewrite !append_assoc.
Qed.

Lemma clean_absolute_nonempty (root : string) : clean_absolute root = true -> root <> "".
Proof. by intros H ->. Qed.

(** The directory of a version, for a clean absolute [dvmDir] and a version
    that is a regular element. *)
Lemma getVersionDir_regular (w : World) (version : string) :
  clean_absolute (dvmDir w) = true -> regular version = true ->
  getVersionDir w version = dvmDir w +:+ "/bin/docker/" +:+ version.
Proof.
  intros Hroot Hv. unfold getVersionDir.
  rewrite Join_clean_absolute; [done|done|done|].
  repeat constructor. done.
Qed.

Lemma binRoot_clean_absolute (w : World) :
  clean_absolute (dvmDir w) = true ->
  clean_absolute (dvmDir w +:+ "/bin/docker") = true.
Proof.
  intros Hroot.
  refine (clean_absolute_append (dvmDir w) ["bin"; "docker"] Hroot _ _); [done|].
  by repeat constructor.
Qed.

(** [filepath.Split] at the last separator. *)
Lemma Split_append (dir file : string) :
  Str.has_byte "/" file = false ->
  Filepath.Split (dir +:+ "/" +:+ file) = (dir +:+ "/", file).
Proof.
  intros Hf. induction dir as [|a dir IH].
  - rewrite !append_empty_l. change ("/" +:+ file) with (String "/" file).
    cbn [Filepath.Split]. rewrite Hf. by destruct (Filepath.Split file).
  - rewrite (append_cons a dir). cbn [Filepath.Split]. rewrite IH.
    rewrite has_byte_append. cbn. by rewrite orb_true_r.
Qed.

Lemma Split_snd_no_slash (path : string) :
  Str.has_byte "/" (snd (Filepath.Split path)) = false.
Proof.
  induction path as [|a path IH]; [done|]. cbn [Filepath.Split].
  destruct (Filepath.Split path) as [d f].
  destruct (Str.has_byte "/" path) eqn:E; [done|].
  destruct (Ascii.eqb a "/") eqn:Ea; cbn; [done|]. by rewrite Ea, E.
Qed.

Lemma chop_last_append (dir : string) (a : ascii) :
  Filepath.chop_last (dir +:+ String a "") = dir.
Proof.
  induction dir as [|b dir IH]; [done|].
  rewrite append_cons. cbn [Filepath.chop_last].
  destruct (dir +:+ String a "") eqn:E.
  - by destruct dir.
  - by rewrite IH.
Qed.

Lemma glob_dir_append (dir : string) :
  dir <> "" -> Filepath.glob_dir (dir +:+ "/") = dir.
Proof.
  intros Hne. unfold Filepath.glob_dir.
  destruct (String.eqb_spec (dir +:+ "/") "") as [E|_].
  { by apply append_eq_empty in E as [_ ?]. }
  destruct (String.eqb_spec (dir +:+ "/") "/") as [E|_].
  { destruct dir as [|a [|b dir]]; [done|done|].
    rewrite !append_cons in E. injection E as _ E. done. }
  apply chop_last_append.
Qed.

(** A path that ends in a regular element has no trailing separator, and
    that element is its base. *)
Lemma strip_trailing_slashes_regular (e : string) :
  e <> "" -> Str.has_byte "/" e = false -> Filepath.strip_trailing_slashes e = e.
Proof.
  induction e as [|a e IH]; [done|]. intros _ Hs. cbn in Hs.
  apply orb_false_iff in Hs as [Ha He]. cbn [Filepath.strip_trailing_slashes].
  destruct e as [|b e].
  - cbn. by rewrite Ha.
  - rewrite IH by done. done.
Qed.

Lemma strip_trailing_slashes_append (dir e : string) :
  e <> "" -> Str.has_byte "/" e = false ->
  Filepath.strip_trailing_slashes (dir +:+ e) = dir +:+ e.
Proof.
  intros Hne Hs. induction dir as [|a dir IH].
  - by apply strip_trailing_slashes_regular.
  - rewrite append_cons. cbn [Filepath.strip_trailing_slashes]. rewrite IH.
    destruct (dir +:+ e) eqn:E; [|done].
    by apply append_eq_empty in E as [_ ?].
Qed.

Lemma Base_append (dir e : string) :
  e <> "" -> Str.has_byte "/" e = false -> Filepath.Base (dir +:+ "/" +:+ e) = e.
Proof.
  intros Hne Hs. unfold Filepath.Base.
  destruct (String.eqb_spec (dir +:+ "/" +:+ e) "") as [E|_].
  { apply append_eq_empty in E as [_ E]. done. }
  rewrite <- append_assoc, strip_trailing_slashes_append by done.
  rewrite append_assoc.
  destruct (String.eqb_spec (dir +:+ "/" +:+ e) "") as [E|_].
  { apply append_eq_empty in E as [_ E]. done. }
  by rewrite Split_append.
Qed.

(** ** Directories *)

Lemma entry_name_child (dir name : string) :
  dir <> "" -> name <> "" -> Str.has_byte "/" name = false ->
  entry_name dir (dir +:+ "/" +:+ name) = Some name.
Proof.
  intros Hd Hn Hs. unfold entry_name. rewrite Split_append by done.
  rewrite glob_dir_append by done. rewrite String.eqb_refl.
  by destruct (String.eqb_spec name "").
Qed.

Lemma entry_name_no_slash (dir k name : string) :
  entry_name dir k = Some name -> Str.has_byte "/" name = false.
Proof.
  unfold entry_name. pose proof (Split_snd_no_slash k) as Hs.
  destruct (Filepath.Split k) as [d n]. cbn in Hs.
  destruct (_ && _); [|done]. by intros [= <-].
Qed.

(** The names [readdirnames] gives are those of the entries of the
    directory. *)
Lemma readdirnames_elem_of (dir name : string) (f : gmap string Node) :
  name ∈ readdirnames dir f
  <-> exists k, is_Some (f !! k) /\ entry_name dir k = Some name.
Proof.
  unfold readdirnames. rewrite sort_elem_of, list_elem_of_omap. split.
  - intros (k & Hk & He). exists k. split; [|done].
    apply list_elem_of_fmap in Hk as ([k' v] & -> & Hkv).
    apply elem_of_map_to_list in Hkv. by exists v.
  - intros (k & [v Hv] & He). exists k. split; [|done].
    apply list_elem_of_fmap. exists (k, v). split; [done|].
    by apply elem_of_map_to_list.
Qed.

Lemma readdirnames_no_slash (dir name : string) (f : gmap string Node) :
  name ∈ readdirnames dir f -> Str.has_byte "/" name = false.
Proof.
  intros (k & _ & He)%readdirnames_elem_of. by eapply entry_name_no_slash.
Qed.

(** ** Installed versions *)

Lemma has_any_byte (chars s : string) (c : ascii) :
  Str.has_any chars s = false -> Str.has_byte c chars = true ->
  Str.has_byte c s = false.
Proof.
  induction s as [|a s IH]; [done|]. cbn.
  intros [Ha Hs]%orb_false_iff Hc. rewrite (IH Hs Hc), orb_false_r.
  destruct (Ascii.eqb_spec a c) as [->|]; [congruence|done].
Qed.

Lemma has_any_weaken (s : string) :
  Str.has_any "*?[\" s = false -> Filepath.hasMeta s = false.
Proof.
  unfold Filepath.hasMeta. induction s as [|a s IH]; [done|]. cbn.
  intros [Ha Hs]%orb_false_iff. rewrite (IH Hs), orb_false_r.
  repeat (apply orb_false_iff in Ha as [? Ha]).
  repeat (apply orb_false_iff; split); done.
Qed.

Section Installed.
Context `{L : GoLib}.

(** A pattern without metacharacter matches itself when it exists. *)
Lemma Glob_literal (f : gmap string Node) (pattern : string) :
  Filepath.hasMeta pattern = false ->
  Glob f pattern = (match f !! pattern with Some _ => [pattern] | None => [] end, true).
Proof.
  intros Hm. unfold Glob.
  destruct (String.length pattern); cbn [Glob_rec]; rewrite Hm; cbn; unfold Stat;
    by destruct (f !! pattern).
Qed.

Lemma glob_names_star (dir p : string) (names m : list string) :
  match_literal_star ->
  Str.has_any "*?[\" p = false ->
  Forall (fun n => Str.has_byte "/" n = false) names ->
  glob_names dir (p +:+ "*") names m
  = (m ++ ((fun n => Filepath.Join [dir; n])
             <$> filter (fun n => Str.has_prefix p n = true) names), true).
Proof.
  intros Law Hp. revert m. induction names as [|n names IH]; intros m Hall.
  - cbn. by rewrite app_nil_r.
  - apply Forall_cons in Hall as [Hn Hall]. cbn [glob_names].
    rewrite (Law p n Hp Hn). rewrite filter_cons.
    destruct (Str.has_prefix p n) eqn:E.
    + rewrite decide_True by done. rewrite (IH _ Hall).
      by rewrite fmap_cons, <- app_assoc.
    + rewrite decide_False by done. by rewrite (IH _ Hall).
Qed.

(** The entries of a directory that begin with [p], for the pattern [p*]. *)
Lemma Glob_star (f : gmap string Node) (dir p : string) :
  match_literal_star ->
  dir <> "" -> Filepath.hasMeta dir = false -> f !! dir = Some Dir ->
  Str.has_any "*?[\" p = false -> Str.has_byte "/" p = false ->
  Glob f (dir +:+ "/" +:+ p +:+ "*")
  = ((fun n => Filepath.Join [dir; n])
       <$> filter (fun n => Str.has_prefix p n = true) (readdirnames dir f), true).
Proof.
  intros Law Hd Hmeta Hdir Hp Hs.
  assert (Hm : Filepath.hasMeta (dir +:+ "/" +:+ p +:+ "*") = true).
  { unfold Filepath.hasMeta. rewrite !has_any_append. cbn. by rewrite !orb_true_r. }
  assert (Hstar : Str.has_byte "/" (p +:+ "*") = false).
  { by rewrite has_byte_append, Hs. }
  assert (Hg : glob f dir (p +:+ "*") []
    = ((fun n => Filepath.Join [dir; n])
         <$> filter (fun n => Str.has_prefix p n = true) (readdirnames dir f), true)).
  { unfold glob, Stat. rewrite Hdir. rewrite glob_names_star; [done|done|done|].
    apply Forall_forall. intros n Hn. by eapply readdirnames_no_slash. }
  unfold Glob.
  destruct (String.length (dir +:+ "/" +:+ p +:+ "*")); cbn [Glob_rec];
    rewrite Hm; cbn [negb]; rewrite Split_append by done;
    rewrite glob_dir_append by done; rewrite Hmeta; cbn [negb]; exact Hg.
Qed.

(** The loop of [getInstalledVersions] returns, writes to the console only,
    keeps what it was given and adds the base name of every directory other
    than the experimental one. *)
Lemma installed_loop_spec (versions acc : list string) (w : World) :
  exists res w',
    installed_loop versions acc w = Returned res w' /\ extends w w'
    /\ (forall x, x ∈ acc -> x ∈ res)
    /\ (forall d, d ∈ versions -> Filepath.Base d <> "experimental" ->
                  Filepath.Base d ∈ res).
Proof.
  revert acc w. induction versions as [|d versions IH]; intros acc w.
  - exists acc, w. split; [done|]. split; [apply extends_refl|].
    split; [done|]. intros d Hd. by apply elem_of_nil in Hd.
  - cbn [installed_loop].
    destruct (String.eqb_spec (Filepath.Base d) "experimental") as [E|E].
    + destruct (returns_console_only _ w returns_getExperimentalDockerVersion
                  console_only_getExperimentalDockerVersion)
        as ([ev err] & w1 & E1 & X1).
      rewrite (bind_returned _ _ _ _ _ E1).
      destruct err as [e|]; cbn [is_nil].
      * unfold bind at 1, get. unfold bind at 1, writeDebug, write, modify.
        match goal with |- context [installed_loop versions acc ?w2] =>
          destruct (IH acc w2) as (res & w' & Er & Xr & Hacc & Hv) end.
        exists res, w'. split; [done|]. split.
        { eapply extends_trans; [exact X1|].
          eapply extends_trans; [|exact Xr]. eexists [_]; reflexivity. }
        split; [done|]. intros d' [->|Hd']%elem_of_cons ?; [done|]. by apply Hv.
      * match goal with |- context [installed_loop versions ?acc' w1] =>
          destruct (IH acc' w1) as (res & w' & Er & Xr & Hacc & Hv) end.
        exists res, w'. split; [done|]. split; [by eapply extends_trans|].
        split.
        { intros x Hx. apply Hacc, elem_of_app. by left. }
        intros d' [->|Hd']%elem_of_cons ?; [done|]. by apply Hv.
    + match goal with |- context [installed_loop versions ?acc' w] =>
        destruct (IH acc' w) as (res & w' & Er & Xr & Hacc & Hv) end.
      exists res, w'. split; [done|]. split; [done|]. split.
      { intros x Hx. apply Hacc, elem_of_app. by left. }
      intros d' [->|Hd']%elem_of_cons ?; [|by apply Hv].
      apply Hacc, elem_of_app. right. by apply list_elem_of_singleton.
Qed.

(** [getInstalledVersions] returns, writes to the console only, and reports
    the base name of every matched directory other than the experimental
    one. *)
Lemma getInstalledVersions_spec (pattern : string) (w : World) :
  exists res w',
    getInstalledVersions pattern w = Returned res w' /\ extends w w'
    /\ (forall d, d ∈ fst (Glob (fs w) (getVersionDir w pattern)) ->
                  Filepath.Base d <> "experimental" -> Filepath.Base d ∈ res).
Proof.
  unfold getInstalledVersions. unfold bind at 1, get.
  destruct (installed_loop_spec (fst (Glob (fs w) (getVersionDir w pattern))) [] w)
    as (res & w1 & E1 & X1 & _ & Hv).
  rewrite (bind_returned _ _ _ _ _ E1).
  destruct (glob_Glob pattern "system").
  - destruct (returns_console_only _ w1 returns_getSystemDockerVersion
                console_only_getSystemDockerVersion)
      as ([sv err] & w2 & E2 & X2).
    unfold bind at 1. rewrite (bind_returned _ _ _ _ _ E2).
    destruct err as [e|]; cbn [is_nil ret].
    + exists (Str.sort res), w2. split; [done|]. split; [by eapply extends_trans|].
      intros d Hd Hb. apply sort_elem_of. by apply Hv.
    + eexists _, w2. split; [done|]. split; [by eapply extends_trans|].
      intros d Hd Hb. apply sort_elem_of, elem_of_app. left. by apply Hv.
  - exists (Str.sort res), w1. split; [done|]. split; [done|].
    intros d Hd Hb. apply sort_elem_of. by apply Hv.
Qed.

End Installed.

(** The loop of [list] writes a line for every version. *)
Lemma list_loop_spec (current : string) (versions : list string) (w : World) :
  exists w',
    list_loop current versions w = Returned tt w' /\ extends w w'
    /\ (forall v, v ∈ versions ->
          (Info, tab +:+ v) ∈ console w' \/ (Green, "->" +:+ tab +:+ v) ∈ console w').
Proof.
  revert w. induction versions as [|v versions IH]; intros w.
  - exists w. split; [done|]. split; [apply extends_refl|].
    intros v Hv. by apply elem_of_nil in Hv.
  - cbn [list_loop]. unfold bind, color_Green, writeInfo, write, modify.
    destruct (String.eqb current v);
      (match goal with |- context [list_loop current versions ?w1] =>
         destruct (IH w1) as (w' & E & X & Hall) end;
       exists w'; split; [done|]; split;
       [eapply extends_trans; [|exact X]; eexists [_]; reflexivity|];
       intros v' [->|Hv']%elem_of_cons; [|by apply Hall];
       destruct (extends_console _ _ X) as [msgs ->]; cbn [console set_console]).
    + right. apply elem_of_app. left. apply elem_of_app. right.
      by apply list_elem_of_singleton.
    + left. apply elem_of_app. left. apply elem_of_app. right.
      by apply list_elem_of_singleton.
Qed.

Lemma getVersionDir_binRoot (w : World) (version : string) :
  clean_absolute (dvmDir w) = true -> regular version = true ->
  getVersionDir w version = binRoot w +:+ "/" +:+ version.
Proof.
  intros Hroot Hv. rewrite getVersionDir_regular by done.
  unfold binRoot. by rewrite append_assoc.
Qed.

Lemma binRoot_no_meta (w : World) :
  Filepath.hasMeta (dvmDir w) = false -> Filepath.hasMeta (binRoot w) = false.
Proof.
  intros Hm. unfold binRoot, Filepath.hasMeta in *. by rewrite has_any_append, Hm.
Qed.

Lemma binRoot_child (w : World) (name : string) :
  clean_absolute (dvmDir w) = true -> regular name = true ->
  Filepath.Join [binRoot w; name] = binRoot w +:+ "/" +:+ name.
Proof.
  intros Hroot Hn.
  rewrite (Join_clean_absolute (binRoot w) [name]);
    [done|by apply binRoot_clean_absolute|done|by repeat constructor].
Qed.

Section Listing.
Context `{L : GoLib}.

(** The glob of [list] finds every entry of the bin root whose name is a
    regular path element without glob metacharacter and begins with the
    pattern. *)
Lemma Glob_finds_entry (w : World) (pattern name : string) :
  match_literal_star ->
  clean_absolute (dvmDir w) = true ->
  Filepath.hasMeta (dvmDir w) = false ->
  fs w !! binRoot w = Some Dir ->
  is_Some (fs w !! (binRoot w +:+ "/" +:+ name)) ->
  regular name = true ->
  Str.has_any "*?[\" name = false ->
  Str.has_prefix pattern name = true ->
  (binRoot w +:+ "/" +:+ name)
    ∈ fst (Glob (fs w) (getVersionDir w (pattern +:+ "*"))).
Proof.
  intros Law Hroot Hmeta Hdir Hentry Hreg Hlit Hpre.
  pose proof (regular_no_slash _ Hreg) as Hslash.
  pose proof (has_byte_prefix "/" _ _ Hpre Hslash) as Hps.
  pose proof (has_any_prefix _ _ _ Hpre Hlit) as Hpl.
  rewrite getVersionDir_binRoot by (done || by apply regular_star).
  rewrite Glob_star; try done.
  - cbn [fst]. apply list_elem_of_fmap. exists name.
    split; [by rewrite binRoot_child|].
    apply list_elem_of_filter. split; [done|].
    apply readdirnames_elem_of. exists (binRoot w +:+ "/" +:+ name).
    split; [done|]. apply entry_name_child; [|by apply regular_nonempty|done].
    by apply clean_absolute_nonempty, binRoot_clean_absolute.
  - by apply clean_absolute_nonempty, binRoot_clean_absolute.
  - by apply binRoot_no_meta.
Qed.

(** [getInstalledVersions] for a version that is a regular path element
    without glob metacharacter and is neither reserved token: the version
    itself when an entry of that name exists under the bin root. *)
Lemma getInstalledVersions_plain (w : World) (version : string) :
  glob_literal ->
  clean_absolute (dvmDir w) = true ->
  Filepath.hasMeta (dvmDir w) = false ->
  regular version = true ->
  Filepath.hasMeta version = false ->
  version <> "system" -> version <> "experimental" ->
  getInstalledVersions version w
  = Returned (match fs w !! (binRoot w +:+ "/" +:+ version) with
              | Some _ => [version]
              | None => []
              end) w.
Proof.
  intros Law Hroot Hmeta Hreg Hlit Hsys Hexp.
  assert (Hstar : Str.has_byte "*" version = false).
  { by apply (has_any_byte "*?[" version "*" Hlit). }
  assert (Hg : glob_Glob version "system" = false).
  { rewrite (Law _ _ Hstar). apply String.eqb_neq. congruence. }
  assert (Hp : Filepath.hasMeta (binRoot w +:+ "/" +:+ version) = false).
  { unfold Filepath.hasMeta in *. rewrite !has_any_append.
    fold (Filepath.hasMeta (binRoot w)). rewrite binRoot_no_meta by done.
    by rewrite Hlit. }
  unfold getInstalledVersions. unfold bind at 1, get.
  rewrite getVersionDir_binRoot by done. rewrite Glob_literal by done. cbn [fst].
  destruct (fs w !! (binRoot w +:+ "/" +:+ version)) as [node|] eqn:E.
  - cbn [installed_loop].
    rewrite Base_append by (by apply regular_nonempty || by apply regular_no_slash).
    apply String.eqb_neq in Hexp. rewrite Hexp. cbn [installed_loop app].
    unfold bind, ret. by rewrite Hg.
  - cbn [installed_loop]. unfold bind, ret. by rewrite Hg.
Qed.

Lemma isVersionInstalled_plain (w : World) (version : string) :
  glob_literal ->
  clean_absolute (dvmDir w) = true ->
  Filepath.hasMeta (dvmDir w) = false ->
  regular version = true ->
  Filepath.hasMeta version = false ->
  version <> "system" -> version <> "experimental" ->
  exists b,
    isVersionInstalled version w = Returned b w
    /\ (b = true <-> is_Some (fs w !! (binRoot w +:+ "/" +:+ version))).
Proof.
  intros Law Hroot Hmeta Hreg Hlit Hsys Hexp. unfold isVersionInstalled.
  rewrite (bind_returned _ _ _ _ _
             (getInstalledVersions_plain w version Law Hroot Hmeta Hreg Hlit Hsys Hexp)).
  destruct (fs w !! (binRoot w +:+ "/" +:+ version)) as [node|].
  - exists true. split; [done|]. by split.
  - exists false. split; [done|]. split; [done|]. by intros [? ?].
Qed.

End Listing.

(** ** What the clients report *)

Lemma getDockerVersion_value (path : string) (w : World) :
  exists w', getDockerVersion path w = Returned (probe (fs w) path) w'
             /\ extends w w'.
Proof.
  unfold getDockerVersion, probe, bind, exec_Output, get, writeDebug, write, modify.
  cbn [fs set_console].
  destruct (_ <? _)%nat; (eexists; split; [reflexivity|eexists [_]; reflexivity]).
Qed.

Lemma getExperimentalDockerVersion_value (w : World) :
  exists w', getExperimentalDockerVersion w = Returned (experimental_probe w) w'
             /\ extends w w'.
Proof.
  unfold getExperimentalDockerVersion, getExperimentalDockerPath, experimental_probe.
  unfold bind at 1. unfold bind at 1. unfold get at 1. unfold bind at 1, os_Stat, get.
  cbn [ret].
  destruct (Stat _ (fs w)); cbn [is_nil].
  - apply getDockerVersion_value.
  - exists w. split; [done|apply extends_refl].
Qed.

Lemma getSystemDockerVersion_value (w : World) :
  exists w', getSystemDockerVersion w = Returned (system_probe w) w'
             /\ extends w w'.
Proof.
  unfold getSystemDockerVersion, system_probe.
  assert (E : getSystemDockerPath w
    = Returned (if String.eqb (Str.join ":"
                      (filter (fun e => managed w e = false) (env_PATH w))) ""
                then failed "" "executable file not found in $PATH"
                else look_in (fs w) "docker"
                       (filter (fun e => managed w e = false) (env_PATH w))) w).
  { unfold getSystemDockerPath, bind, getPath, get, removePreviousDvmVersionFromPath,
      bind, get, removePath, modify, exec_LookPath, get, setPath, modify, ret.
    cbn [env_PATH set_PATH fs]. by rewrite set_PATH_back. }
  rewrite (bind_returned _ _ _ _ _ E).
  destruct (if String.eqb _ "" then _ else _) as [p [e|]]; cbn [is_nil].
  - exists w. split; [done|apply extends_refl].
  - apply getDockerVersion_value.
Qed.

Lemma experimental_probe_extends (w w' : World) :
  extends w w' -> experimental_probe w' = experimental_probe w.
Proof. by intros [msgs ->]. Qed.

Section ListingExperimental.
Context `{L : GoLib}.

(** When the experimental binary reports a version, the loop of
    [getInstalledVersions] lists the experimental directory with it. *)
Lemma installed_loop_experimental (versions acc : list string) (w w' : World)
    (res : list string) (d ev : string) :
  installed_loop versions acc w = Returned res w' ->
  d ∈ versions -> Filepath.Base d = "experimental" ->
  experimental_probe w = (ev, None) ->
  "experimental (" +:+ ev +:+ ")" ∈ res.
Proof.
  revert acc w. induction versions as [|d' versions IH]; intros acc w Hr Hd Hb Hp.
  { by apply elem_of_nil in Hd. }
  cbn [installed_loop] in Hr.
  destruct (String.eqb_spec (Filepath.Base d') "experimental") as [E|E].
  - destruct (getExperimentalDockerVersion_value w) as (w1 & E1 & X1).
    rewrite (bind_returned _ _ _ _ _ E1), Hp in Hr. cbn [is_nil] in Hr.
    destruct (installed_loop_spec versions (acc ++ ["experimental (" +:+ ev +:+ ")"]) w1)
      as (res' & w2 & E2 & _ & Hacc & _).
    rewrite E2 in Hr. injection Hr as <- <-.
    apply Hacc, elem_of_app. right. by apply list_elem_of_singleton.
  - apply elem_of_cons in Hd as [->|Hd]; [done|].
    by apply (IH _ _ Hr Hd Hb Hp).
Qed.

Lemma getInstalledVersions_experimental (pattern : string) (w w' : World)
    (res : list string) (d ev : string) :
  getInstalledVersions pattern w = Returned res w' ->
  d ∈ fst (Glob (fs w) (getVersionDir w pattern)) ->
  Filepath.Base d = "experimental" ->
  experimental_probe w = (ev, None) ->
  "experimental (" +:+ ev +:+ ")" ∈ res.
Proof.
  unfold getInstalledVersions. unfold bind at 1, get. intros Hr Hd Hb Hp.
  destruct (installed_loop_spec (fst (Glob (fs w) (getVersionDir w pattern))) [] w)
    as (res1 & w1 & E1 & X1 & _ & _).
  rewrite (bind_returned _ _ _ _ _ E1) in Hr.
  pose proof (installed_loop_experimental _ _ _ _ _ _ _ E1 Hd Hb Hp) as Hin.
  destruct (glob_Glob pattern "system").
  - destruct (getSystemDockerVersion_value w1) as (w2 & E2 & X2).
    unfold bind at 1 in Hr. rewrite (bind_returned _ _ _ _ _ E2) in Hr.
    destruct (system_probe w1) as [sv [e|]]; cbn [is_nil ret] in Hr;
      injection Hr as <- <-; apply sort_elem_of; [done|].
    apply elem_of_app. by left.
  - cbn in Hr. injection Hr as <- <-. by apply sort_elem_of.
Qed.

End ListingExperimental.

Section ListingTheorems.
Context `{L : GoLib}.

(** C10, as the program has it.  [list] globs for the pattern followed by a
    star under the bin root.  With a clean absolute [dvmDir] without glob
    metacharacter, take an entry of the bin root whose name is a regular
    path element without glob metacharacter and begins with the pattern.
    If it is not ["experimental"], it has its line in the listing.  The
    experimental directory has the line ["experimental (v)"] when its binary
    reports the version [v]; otherwise the loop skips it. *)
Theorem list_shows_prefix_matches (w : World) (pattern name : string) :
  match_literal_star ->
  clean_absolute (dvmDir w) = true ->
  Filepath.hasMeta (dvmDir w) = false ->
  fs w !! binRoot w = Some Dir ->
  is_Some (fs w !! (binRoot w +:+ "/" +:+ name)) ->
  regular name = true ->
  Str.has_any "*?[\" name = false ->
  Str.has_prefix pattern name = true ->
  exists w',
    list_ pattern w = Returned tt w' /\ extends w w'
    /\ (name <> "experimental" -> listed name w')
    /\ (name = "experimental" ->
        forall v, experimental_probe w = (v, None) ->
                  listed ("experimental (" +:+ v +:+ ")") w').
Proof.
  intros Law Hroot Hmeta Hdir Hentry Hreg Hlit Hpre.
  pose proof (Glob_finds_entry w pattern name Law Hroot Hmeta Hdir Hentry Hreg
                Hlit Hpre) as Hglob.
  assert (Hbase : Filepath.Base (binRoot w +:+ "/" +:+ name) = name).
  { apply Base_append; [by apply regular_nonempty|by apply regular_no_slash]. }
  unfold list_.
  destruct (getInstalledVersions_spec (pattern +:+ "*") w)
    as (res & w1 & E1 & X1 & Hv).
  rewrite (bind_returned _ _ _ _ _ E1).
  destruct (returns_console_only _ w1 returns_getCurrentDockerVersion
              console_only_getCurrentDockerVersion) as ([cur err] & w2 & E2 & X2).
  rewrite (bind_returned _ _ _ _ _ E2).
  destruct (list_loop_spec cur res w2) as (w' & E3 & X3 & Hall).
  exists w'. split; [done|]. split.
  { eapply extends_trans; [exact X1|]. by eapply extends_trans. }
  split.
  - intros Hne. apply Hall. rewrite <- Hbase. apply Hv; [done|]. by rewrite Hbase.
  - intros -> v Hp. apply Hall.
    by apply (getInstalledVersions_experimental _ _ _ _ _ _ E1 Hglob Hbase Hp).
Qed.

(** [isVersionInstalled "experimental"]: the directory exists and its binary
    reports a version. *)
Lemma isVersionInstalled_experimental (w : World) :
  glob_literal ->
  clean_absolute (dvmDir w) = true ->
  Filepath.hasMeta (dvmDir w) = false ->
  exists b w',
    isVersionInstalled "experimental" w = Returned b w' /\ extends w w'
    /\ (b = true <-> is_Some (fs w !! (binRoot w +:+ "/experimental"))
                     /\ snd (experimental_probe w) = None).
Proof.
  intros Law Hroot Hmeta.
  assert (Hg : glob_Glob "experimental" "system" = false) by by rewrite (Law _ _).
  assert (Hp : Filepath.hasMeta (binRoot w +:+ "/experimental") = false).
  { unfold Filepath.hasMeta. rewrite has_any_append.
    fold (Filepath.hasMeta (binRoot w)). by rewrite binRoot_no_meta. }
  unfold isVersionInstalled, getInstalledVersions.
  unfold bind at 1. unfold bind at 1. unfold get at 1.
  rewrite (getVersionDir_binRoot w "experimental") by done.
  change (binRoot w +:+ "/" +:+ "experimental") with (binRoot w +:+ "/experimental").
  rewrite Glob_literal by done. cbn [fst]. rewrite Hg.
  destruct (fs w !! (binRoot w +:+ "/experimental")) as [node|] eqn:E.
  - cbn [installed_loop].
    change (binRoot w +:+ "/experimental") with (binRoot w +:+ "/" +:+ "experimental").
    rewrite Base_append by done. cbn [String.eqb Ascii.eqb Bool.eqb].
    destruct (getExperimentalDockerVersion_value w) as (w1 & E1 & X1).
    unfold bind at 1. rewrite (bind_returned _ _ _ _ _ E1).
    destruct (experimental_probe w) as [ev [e|]]; cbn [is_nil snd].
    + unfold bind, get, writeDebug, write, modify, ret. cbn [installed_loop ret].
      eexists false, _. split; [reflexivity|]. split.
      { eapply extends_trans; [exact X1|]. eexists [_]; reflexivity. }
      split; [done|]. by intros [_ ?].
    + cbn [installed_loop app]. unfold bind, ret.
      exists true, w1. split; [done|]. split; [done|]. by split.
  - cbn [installed_loop]. unfold bind, ret. exists false, w.
    split; [done|]. split; [apply extends_refl|]. split; [done|].
    by intros [[? ?] _].
Qed.

(** [isVersionInstalled "system"]: an entry of that name exists under the
    bin root, or the system client reports a version. *)
Lemma isVersionInstalled_system (w : World) :
  glob_literal ->
  clean_absolute (dvmDir w) = true ->
  Filepath.hasMeta (dvmDir w) = false ->
  exists b w',
    isVersionInstalled "system" w = Returned b w' /\ extends w w'
    /\ (b = true <-> is_Some (fs w !! (binRoot w +:+ "/system"))
                     \/ snd (system_probe w) = None).
Proof.
  intros Law Hroot Hmeta.
  assert (Hg : glob_Glob "system" "system" = true) by by rewrite (Law _ _).
  assert (Hp : Filepath.hasMeta (binRoot w +:+ "/system") = false).
  { unfold Filepath.hasMeta. rewrite has_any_append.
    fold (Filepath.hasMeta (binRoot w)). by rewrite binRoot_no_meta. }
  unfold isVersionInstalled, getInstalledVersions.
  unfold bind at 1. unfold bind at 1. unfold get at 1.
  rewrite (getVersionDir_binRoot w "system") by done.
  change (binRoot w +:+ "/" +:+ "system") with (binRoot w +:+ "/system").
  rewrite Glob_literal by done. cbn [fst]. rewrite Hg.
  destruct (getSystemDockerVersion_value w) as (w1 & E1 & X1).
  destruct (fs w !! (binRoot w +:+ "/system")) as [node|] eqn:E.
  - cbn [installed_loop].
    change (binRoot w +:+ "/system") with (binRoot w +:+ "/" +:+ "system").
    rewrite Base_append by done. cbn [String.eqb Ascii.eqb Bool.eqb installed_loop app].
    unfold bind at 1. unfold ret at 1. unfold bind at 1.
    rewrite (bind_returned _ _ _ _ _ E1).
    destruct (system_probe w) as [sv [e|]]; cbn [is_nil snd ret];
      (exists true, w1; split; [done|]; split; [done|]; split; [by left|done]).
  - cbn [installed_loop]. unfold bind at 1. unfold ret at 1. unfold bind at 1.
    rewrite (bind_returned _ _ _ _ _ E1).
    destruct (system_probe w) as [sv [e|]]; cbn [is_nil snd ret].
    + exists false, w1. split; [done|]. split; [done|]. split; [done|].
      intros [[? ?]|?]; done.
    + exists true, w1. split; [done|]. split; [done|]. split; [by right|done].
Qed.

(** C7, as the program has it.  With a clean absolute [dvmDir] without glob
    metacharacter, and for a version that is a regular path element without
    glob metacharacter, [isVersionInstalled] returns, having written to the
    console at most, and its answer is: for a version other than the
    reserved tokens, whether an entry of that name exists under the bin
    root; for ["experimental"], whether the directory exists and its binary
    reports a version; for ["system"], whether such an entry exists or the
    system client reports a version. *)
Theorem isVersionInstalled_iff_entry (w : World) (version : string) :
  glob_literal ->
  clean_absolute (dvmDir w) = true ->
  Filepath.hasMeta (dvmDir w) = false ->
  regular version = true ->
  Filepath.hasMeta version = false ->
  exists b w',
    isVersionInstalled version w = Returned b w' /\ extends w w'
    /\ (b = true <->
        if decide (version = "system") then
          is_Some (fs w !! (binRoot w +:+ "/" +:+ version))
          \/ snd (system_probe w) = None
        else if decide (version = "experimental") then
          is_Some (fs w !! (binRoot w +:+ "/" +:+ version))
          /\ snd (experimental_probe w) = None
        else is_Some (fs w !! (binRoot w +:+ "/" +:+ version))).
Proof.
  intros Law Hroot Hmeta Hreg Hlit.
  destruct (decide (version = "system")) as [->|Hsys].
  { by apply isVersionInstalled_system. }
  destruct (decide (version = "experimental")) as [->|Hexp].
  { by apply isVersionInstalled_experimental. }
  destruct (isVersionInstalled_plain w version Law Hroot Hmeta Hreg Hlit Hsys Hexp)
    as (b & E & Hb).
  exists b, w. split; [done|]. split; [apply extends_refl|done].
Qed.

End ListingTheorems.

(** ** The sample libraries keep to what is relied on *)

Lemma has_any_split (s : string) :
  Str.has_any "*?[\" s = false ->
  Str.has_any "?[\" s = false /\ Str.has_byte "*" s = false.
Proof.
  induction s as [|a s IH]; [done|]. cbn.
  intros [Ha Hs]%orb_false_iff. destruct (IH Hs) as [-> ->].
  rewrite !orb_false_r. repeat (apply orb_false_iff in Ha as [? Ha]).
  split; [|done]. by repeat (apply orb_false_iff; split).
Qed.

Lemma wild_star_all (name : string) :
  Str.has_byte "/" name = false -> Sample.wild "*" name = true.
Proof.
  induction name as [|a name IH]; [done|]. cbn.
  intros [Ha Hs]%orb_false_iff. rewrite Ha. cbn. exact (IH Hs).
Qed.

Lemma wild_literal_star (p name : string) :
  Str.has_byte "*" p = false -> Str.has_byte "/" name = false ->
  Sample.wild (p +:+ "*") name = Str.has_prefix p name.
Proof.
  revert name. induction p as [|a p IH]; intros name Hp Hn.
  - rewrite append_empty_l. by apply wild_star_all.
  - cbn in Hp. apply orb_false_iff in Hp as [Ha Hp].
    rewrite append_cons. cbn [Sample.wild]. rewrite Ha.
    destruct name as [|b name]; [done|]. cbn in Hn.
    apply orb_false_iff in Hn as [_ Hn]. cbn [Str.has_prefix].
    by rewrite (IH name Hp Hn).
Qed.

Lemma Sample_match_literal_star : match_literal_star (L := Sample.lib).
Proof.
  intros p name Hp Hn. destruct (has_any_split p Hp) as [Hq Hs].
  cbn. unfold Sample.filepath_Match. rewrite has_any_append, Hq. cbn.
  by rewrite wild_literal_star.
Qed.

Lemma Sample_glob_literal : glob_literal (L := Sample.lib).
Proof.
  intros p s Hp. cbn. unfold Sample.glob_Glob.
  destruct (String.eqb_spec p "") as [->|_]; [done|].
  destruct (String.eqb_spec p "*") as [->|_]; [done|].
  by rewrite (split_without_sep "*" p Hp).
Qed.

(** ** Aliases *)

(** C4. In [Sample.two_releases] no entry named [1.*] exists under the bin
    root (the installed versions are 1.1.0 and 1.10.0), and yet
    [isVersionInstalled "1.*"] answers [true], because the version is handed
    to the glob as a pattern; [alias "latest" "1.*"] returns without error
    and has persisted the alias record [latest] with the contents [1.*]. *)
Theorem alias_accepts_glob_pattern :
  let w := Sample.two_releases in
  getVersionDir w "1.*" = "/home/u/.dvm/bin/docker/1.*"
  /\ fs w !! getVersionDir w "1.*" = None
  /\ returned (getInstalledVersions (L := Sample.lib) "1.*" w) = Some ["1.1.0"; "1.10.0"]
  /\ returned (isVersionInstalled (L := Sample.lib) "1.*" w) = Some true
  /\ returned (alias (L := Sample.lib) "latest" "1.*" w) = Some tt
  /\ exit_code (alias (L := Sample.lib) "latest" "1.*" w) = None
  /\ getAliasPath w "latest" = "/home/u/.dvm/alias/latest"
  /\ fs (final (alias (L := Sample.lib) "latest" "1.*" w)) !! getAliasPath w "latest"
     = Some (File false "1.*").
Proof. cbv zeta. repeat split; vm_compute; reflexivity. Qed.

(** For a version that no glob matches, [alias] exits with
    [retCodeInvalidArgument] and writes no record. *)
Lemma alias_refuses_when_not_reported `{L : GoLib} (name version : string) (w w1 : World) :
  name <> "" -> version <> "" ->
  isVersionInstalled version w = Returned false w1 ->
  exists w', alias name version w = Exited retCodeInvalidArgument w'
             /\ extends w1 w'.
Proof.
  intros Hn Hv E. apply String.eqb_neq in Hn. apply String.eqb_neq in Hv.
  eexists. split.
  - unfold alias. rewrite Hn, Hv. cbn [orb].
    rewrite (bind_returned _ _ _ _ _ E). cbn [negb]. reflexivity.
  - eexists [_]; reflexivity.
Qed.

(** ** Concrete installations *)

(** C7, as stated, fails in both directions.  In [Sample.two_releases] no
    entry named [system] exists under the bin root, and
    [isVersionInstalled "system"] answers [true], because the system client
    reports a version.  In [Sample.experimental_broken] the directory of the
    experimental build exists, and [isVersionInstalled "experimental"]
    answers [false], because its binary reports no version. *)
Lemma isVersionInstalled_differs_from_directory :
  (getVersionDir Sample.two_releases "system" = "/home/u/.dvm/bin/docker/system"
   /\ fs Sample.two_releases !! getVersionDir Sample.two_releases "system" = None
   /\ returned (isVersionInstalled (L := Sample.lib) "system" Sample.two_releases)
      = Some true)
  /\ (getVersionDir Sample.experimental_broken "experimental"
      = "/home/u/.dvm/bin/docker/experimental"
      /\ fs Sample.experimental_broken
           !! getVersionDir Sample.experimental_broken "experimental" = Some Dir
      /\ returned (isVersionInstalled (L := Sample.lib) "experimental"
                     Sample.experimental_broken) = Some false).
Proof. repeat split; vm_compute; reflexivity. Qed.

Lemma isVersionInstalled_iff_entry_witness :
  let w := Sample.two_releases in
  glob_literal (L := Sample.lib)
  /\ clean_absolute (dvmDir w) = true
  /\ Filepath.hasMeta (dvmDir w) = false
  /\ regular "1.10.0" = true
  /\ Filepath.hasMeta "1.10.0" = false
  /\ exists b w',
       isVersionInstalled (L := Sample.lib) "1.10.0" w = Returned b w'
       /\ extends w w'
       /\ (b = true <->
           if decide ("1.10.0" = "system") then
             is_Some (fs w !! (binRoot w +:+ "/" +:+ "1.10.0"))
             \/ snd (system_probe w) = None
           else if decide ("1.10.0" = "experimental") then
             is_Some (fs w !! (binRoot w +:+ "/" +:+ "1.10.0"))
             /\ snd (experimental_probe w) = None
           else is_Some (fs w !! (binRoot w +:+ "/" +:+ "1.10.0"))).
Proof.
  cbv zeta.
  split; [exact Sample_glob_literal|]. do 4 (split; [reflexivity|]).
  apply (isVersionInstalled_iff_entry (L := Sample.lib) Sample.two_releases "1.10.0"
           Sample_glob_literal); reflexivity.
Defined.

(** C10, as stated, fails for the experimental build.  In
    [Sample.experimental_broken] the directory [experimental] exists under
    the bin root and its name begins with [exp], and [list "exp"] returns
    with no line written: the binary reports no version and the loop skips
    the directory. *)
Lemma list_skips_unreadable_experimental :
  let w := Sample.experimental_broken in
  fs w !! "/home/u/.dvm/bin/docker/experimental" = Some Dir
  /\ Str.has_prefix "exp" "experimental" = true
  /\ returned (list_ (L := Sample.lib) "exp" w) = Some tt
  /\ filter (fun m => fst m <> Debug) (console (final (list_ (L := Sample.lib) "exp" w)))
     = [].
Proof. cbv zeta. repeat split; vm_compute; reflexivity. Qed.

Lemma list_shows_prefix_matches_witness :
  let w := Sample.two_releases in
  match_literal_star (L := Sample.lib)
  /\ clean_absolute (dvmDir w) = true
  /\ Filepath.hasMeta (dvmDir w) = false
  /\ fs w !! binRoot w = Some Dir
  /\ is_Some (fs w !! (binRoot w +:+ "/" +:+ "1.10.0"))
  /\ regular "1.10.0" = true
  /\ Str.has_any "*?[\" "1.10.0" = false
  /\ Str.has_prefix "1.1" "1.10.0" = true
  /\ exists w',
       list_ (L := Sample.lib) "1.1" w = Returned tt w' /\ extends w w'
       /\ ("1.10.0" <> "experimental" -> listed "1.10.0" w')
       /\ ("1.10.0" = "experimental" ->
           forall v, experimental_probe w = (v, None) ->
                     listed ("experimental (" +:+ v +:+ ")") w').
Proof.
  cbv zeta.
  split; [exact Sample_match_literal_star|]. do 2 (split; [reflexivity|]).
  split; [vm_compute; reflexivity|].
  split; [eexists; vm_compute; reflexivity|]. do 3 (split; [reflexivity|]).
  apply (list_shows_prefix_matches (L := Sample.lib) Sample.two_releases "1.1" "1.10.0"
           Sample_match_literal_star);
    first [reflexivity | vm_compute; reflexivity | eexists; vm_compute; reflexivity].
Defined.

(** [list "1.1"] on the installation with 1.1.0 and 1.10.0: both lines. *)
Example list_1_1 :
  filter (fun m => fst m <> Debug)
    (console (final (list_ (L := Sample.lib) "1.1" Sample.two_releases)))
  = [(Info, tab +:+ "1.1.0"); (Info, tab +:+ "1.10.0")].
Proof. vm_compute; reflexivity. Qed.

(** For a plain version without entry under the bin root, [alias] exits with
    [retCodeInvalidArgument] and the file system is as before. *)
Lemma alias_refuses_missing_plain_version `{L : GoLib} (name version : string) (w : World) :
  glob_literal ->
  clean_absolute (dvmDir w) = true ->
  Filepath.hasMeta (dvmDir w) = false ->
  regular version = true ->
  Filepath.hasMeta version = false ->
  version <> "system" -> version <> "experimental" ->
  name <> "" ->
  fs w !! (binRoot w +:+ "/" +:+ version) = None ->
  exists w', alias name version w = Exited retCodeInvalidArgument w'
             /\ fs w' = fs w.
Proof.
  intros Law Hroot Hmeta Hreg Hlit Hsys Hexp Hname Hnone.
  destruct (isVersionInstalled_plain w version Law Hroot Hmeta Hreg Hlit Hsys Hexp)
    as (b & E & Hb).
  destruct b.
  { destruct (proj1 Hb eq_refl) as [node Hnode]. congruence. }
  destruct (alias_refuses_when_not_reported name version w w Hname
              (regular_nonempty _ Hreg) E) as (w' & Ea & X).
  exists w'. split; [done|]. by apply extends_fs.
Qed.

(** ** The recursion of the glob *)

Lemma Split_fst_length (path : string) :
  (String.length (fst (Filepath.Split path)) <= String.length path)%nat.
Proof.
  induction path as [|a path IH]; [done|]. cbn [Filepath.Split].
  destruct (Filepath.Split path) as [d f]. cbn [fst] in IH.
  destruct (Str.has_byte "/" path); [cbn; lia|].
  destruct (Ascii.eqb a "/"); cbn; lia.
Qed.

Lemma chop_last_length (s : string) :
  s <> "" -> (String.length (Filepath.chop_last s) < String.length s)%nat.
Proof.
  induction s as [|a s IH]; [done|]. intros _.
  destruct s as [|b s]; [cbn; lia|].
  cbn [Filepath.chop_last String.length] in *.
  assert (String b s <> "") as Hne by done. specialize (IH Hne). lia.
Qed.

(** The directory part of a pattern, when it has a metacharacter, is shorter
    than the pattern. *)
Lemma glob_dir_shorter (pattern : string) :
  Filepath.hasMeta (Filepath.glob_dir (fst (Filepath.Split pattern))) = true ->
  (String.length (Filepath.glob_dir (fst (Filepath.Split pattern)))
   < String.length pattern)%nat.
Proof.
  pose proof (Split_fst_length pattern) as Hl. unfold Filepath.glob_dir.
  destruct (String.eqb_spec (fst (Filepath.Split pattern)) "") as [E|E]; [done|].
  destruct (String.eqb (fst (Filepath.Split pattern)) "/"); [done|].
  intros _. pose proof (chop_last_length _ E). lia.
Qed.

Lemma Glob_rec_unfold `{L : GoLib} (f : gmap string Node) (fuel : nat) (pattern : string) :
  Glob_rec fuel f pattern
  = if negb (Filepath.hasMeta pattern) then
      match Stat pattern f with
      | Some _ => ([pattern], true)
      | None => ([], true)
      end
    else
      let '(dir0, file) := Filepath.Split pattern in
      let dir := Filepath.glob_dir dir0 in
      if negb (Filepath.hasMeta dir) then glob f dir file []
      else
        match fuel with
        | O => ([], false)
        | S fuel' =>
            let '(m, good) := Glob_rec fuel' f dir in
            if good then glob_each f file m [] else ([], false)
        end.
Proof. by destruct fuel. Qed.

(** The budget [filepath.Glob] is run with is enough: a larger one gives
    the same matches. *)
Lemma Glob_rec_fuel `{L : GoLib} (f : gmap string Node) (fuel : nat) (pattern : string) :
  (String.length pattern <= fuel)%nat ->
  Glob_rec (S fuel) f pattern = Glob_rec fuel f pattern.
Proof.
  revert pattern. induction fuel as [|fuel IH]; intros pattern Hlen.
  - destruct pattern; [done|]. cbn in Hlen. lia.
  - rewrite (Glob_rec_unfold f (S (S fuel))), (Glob_rec_unfold f (S fuel)).
    destruct (negb (Filepath.hasMeta pattern)); [done|].
    pose proof (glob_dir_shorter pattern) as Hs.
    destruct (Filepath.Split pattern) as [dir0 file]. cbn [fst] in Hs.
    cbv zeta.
    destruct (Filepath.hasMeta (Filepath.glob_dir dir0)) eqn:Hm; cbn [negb]; [|done].
    specialize (Hs eq_refl).
    rewrite (IH (Filepath.glob_dir dir0)) by lia. done.
Qed.

Lemma Glob_enough_fuel `{L : GoLib} (f : gmap string Node) (extra : nat) (pattern : string) :
  Glob_rec (String.length pattern + extra) f pattern = Glob f pattern.
Proof.
  unfold Glob. induction extra as [|extra IH].
  - by rewrite Nat.add_0_r.
  - rewrite Nat.add_succ_r, Glob_rec_fuel by lia. exact IH.
Qed.

(** * Further properties of the commands *)

(** ** The commands that only read *)

Section ReadOnly.
Context `{L : GoLib}.

(** X1. [current], [which] and [list] never end the process and change
    nothing but the console: whatever PATH, the file system and the pattern
    are, each returns, and the world it leaves differs from the one it found
    by messages only.  The PATH that [getSystemDockerPath] rewrites on the
    way is put back. *)
Theorem reading_commands_change_nothing (pattern : string) (w : World) :
  (exists w', current w = Returned tt w' /\ extends w w')
  /\ (exists w', which w = Returned tt w' /\ extends w w')
  /\ (exists w', list_ pattern w = Returned tt w' /\ extends w w').
Proof.
  split; [|split].
  - unfold current.
    destruct (returns_console_only _ w returns_getCurrentDockerVersion
                console_only_getCurrentDockerVersion) as ([label err] & w1 & E & X).
    rewrite (bind_returned _ _ _ _ _ E).
    destruct (is_nil err); (eexists; split; [reflexivity|]);
      (eapply extends_trans; [exact X|]; eexists [_]; reflexivity).
  - unfold which, getCurrentDockerPath, exec_LookPath, bind, get.
    destruct (if String.eqb _ "" then _ else _) as [p [e|]]; cbn [is_nil].
    + exists w. split; [done|apply extends_refl].
    + eexists. split; [reflexivity|]. eexists [_]; reflexivity.
  - unfold list_.
    destruct (getInstalledVersions_spec (pattern +:+ "*") w)
      as (res & w1 & E1 & X1 & _).
    rewrite (bind_returned _ _ _ _ _ E1).
    destruct (returns_console_only _ w1 returns_getCurrentDockerVersion
                console_only_getCurrentDockerVersion) as ([cur err] & w2 & E2 & X2).
    rewrite (bind_returned _ _ _ _ _ E2).
    destruct (list_loop_spec cur res w2) as (w' & E3 & X3 & _).
    exists w'. split; [done|].
    eapply extends_trans; [exact X1|]. by eapply extends_trans.
Qed.

End ReadOnly.

(** What [look_in] finds is an executable file named as asked, in one of the
    directories. *)
Lemma look_in_found (f : gmap string Node) (file : string) (dirs : list string)
    (path : string) :
  look_in f file dirs = (path, None) ->
  exists dir, dir ∈ dirs
    /\ path = Filepath.Join [if String.eqb dir "" then "." else dir; file]
    /\ exists data, f !! path = Some (File true data).
Proof.
  induction dirs as [|d dirs IH]; [done|]. cbn [look_in].
  destruct (findExecutable f _) eqn:E.
  - intros [= <-]. exists d. split; [by left|]. split; [done|].
    unfold findExecutable, Stat in E.
    destruct (f !! _) as [[|[] data]|]; try done. by exists data.
  - intros (dir & Hd & -> & Hx)%IH. exists dir. split; [by right|]. by split.
Qed.

(** X2. [getSystemDockerPath] leaves PATH, and the whole world, as it found
    it, although it strips the managed entries for the lookup; and the client
    it finds is an executable file [docker] in a PATH entry that is not under
    the managed bin root. *)
Theorem getSystemDockerPath_outside_bin_root (w : World) :
  exists r,
    getSystemDockerPath w = Returned r w
    /\ (snd r = None ->
        exists dir, dir ∈ env_PATH w /\ managed w dir = false
          /\ fst r = Filepath.Join [if String.eqb dir "" then "." else dir; "docker"]
          /\ exists data, fs w !! fst r = Some (File true data)).
Proof.
  assert (E : getSystemDockerPath w
    = Returned (if String.eqb (Str.join ":"
                      (filter (fun e => managed w e = false) (env_PATH w))) ""
                then failed "" "executable file not found in $PATH"
                else look_in (fs w) "docker"
                       (filter (fun e => managed w e = false) (env_PATH w))) w).
  { unfold getSystemDockerPath, bind, getPath, get, removePreviousDvmVersionFromPath,
      bind, get, removePath, modify, exec_LookPath, get, setPath, modify, ret.
    cbn [env_PATH set_PATH fs]. by rewrite set_PATH_back. }
  eexists. split; [exact E|].
  destruct (String.eqb _ ""); [done|].
  destruct (look_in _ _ _) as [p [e|]] eqn:El; [done|]. intros _.
  apply look_in_found in El as (dir & Hd & -> & Hx).
  apply list_elem_of_filter in Hd as [Hm Hd]. exists dir. by repeat split.
Qed.

(** ** Removing a version *)

Lemma remove_all_lookup (path k : string) (f : gmap string Node) :
  remove_all path f !! k = if below path k then None else f !! k.
Proof.
  unfold remove_all. destruct (below path k) eqn:E.
  - apply map_lookup_filter_None. right. intros x _. cbn. congruence.
  - destruct (f !! k) as [x|] eqn:Ek.
    + by apply map_lookup_filter_Some.
    + apply map_lookup_filter_None. by left.
Qed.

Lemma below_self (path : string) : below path path = true.
Proof. unfold below. by rewrite String.eqb_refl. Qed.

Lemma below_child (path name : string) : below path (path +:+ "/" +:+ name) = true.
Proof.
  unfold below. rewrite <- append_assoc, has_prefix_append. apply orb_true_r.
Qed.

(** X3. [uninstall] never touches an entry outside the directory of the
    version it is given: however it ends (refused, nothing to do, removal
    failed, removed), every path that is neither that directory nor below it
    holds what it held before. *)
Theorem uninstall_touches_the_version_only (version k : string) (w : World) :
  below (getVersionDir w version) k = false ->
  fs (final (uninstall version w)) !! k = fs w !! k.
Proof.
  intros Hk. unfold uninstall.
  destruct (String.eqb version ""); [done|].
  destruct (returns_console_only _ w returns_getCurrentDockerVersion
              console_only_getCurrentDockerVersion) as ([label err] & w1 & E & X).
  rewrite (bind_returned _ _ _ _ _ E).
  pose proof (extends_fs _ _ X) as Hfs. pose proof (extends_dvmDir _ _ X) as Hd.
  destruct (String.eqb label version); [cbn; by rewrite Hfs|].
  unfold die, writeWarning, writeInfo, write, os_Exit.
  unfold bind, get, os_Stat, get, os_RemoveAll, bind, get, modify, ret, id.
  unfold getVersionDir in *. rewrite Hd.
  remember (Filepath.Join [dvmDir w; "bin"; "docker"; version]) as dir eqn:Edir.
  clear Edir.
  destruct (Stat dir (fs w1)); cbn; [|by rewrite Hfs].
  destruct (decide (dir ∈ denied w1)); cbn; [by rewrite Hfs|].
  by rewrite remove_all_lookup, Hk, Hfs.
Qed.

(** X4. When the version is not the active one, its directory exists and
    may be removed, [uninstall] returns and nothing is left at the directory
    or below it. *)
Theorem uninstall_removes_the_directory (version k : string) (w w1 : World)
    (label : string) (err : option string) :
  version <> "" ->
  getCurrentDockerVersion w = Returned (label, err) w1 ->
  label <> version ->
  is_Some (fs w !! getVersionDir w version) ->
  getVersionDir w version ∉ denied w ->
  below (getVersionDir w version) k = true ->
  returned (uninstall version w) = Some tt
  /\ fs (final (uninstall version w)) !! k = None.
Proof.
  intros Hne E Hl [node Hdir] Hden Hk.
  apply String.eqb_neq in Hne. apply String.eqb_neq in Hl.
  pose proof (console_only_getCurrentDockerVersion w) as X. rewrite E in X.
  cbn [final] in X. destruct X as [msgs ->].
  unfold uninstall. rewrite Hne, (bind_returned _ _ _ _ _ E), Hl.
  unfold die, writeWarning, writeInfo, write, os_Exit.
  unfold bind, get, os_Stat, get, os_RemoveAll, bind, get, modify, ret, id.
  unfold getVersionDir in *. cbn [dvmDir fs denied set_console].
  remember (Filepath.Join [dvmDir w; "bin"; "docker"; version]) as dir eqn:Edir.
  clear Edir.
  unfold Stat. rewrite Hdir. cbn [is_nil negb].
  rewrite decide_False by done. cbn [is_nil negb final returned fs set_fs].
  split; [done|]. cbn [fs set_console set_fs]. by rewrite remove_all_lookup, Hk.
Qed.

(** ** Alias records *)

Lemma mkdir_parents_preserves (path k : string) (f : gmap string Node) (n : Node) :
  f !! k = Some n -> mkdir_parents path f !! k = Some n.
Proof.
  unfold mkdir_parents. generalize (ancestors path). intros ds. revert f.
  induction ds as [|d ds IH]; intros f Hk; [done|]. cbn [fold_left]. apply IH.
  destruct (f !! d) eqn:Ed; [done|].
  rewrite lookup_insert_ne; [done|]. congruence.
Qed.

Lemma extends_denied w w' : extends w w' -> denied w' = denied w.
Proof. by intros [m ->]. Qed.

(** Stepping through a sequence of calls. *)
Lemma bind_get {A B} (f : World -> A) (k : A -> M B) (w : World) :
  bind (get f) k w = k (f w) w.
Proof. reflexivity. Qed.

Lemma bind_ret {A B} (a : A) (k : A -> M B) (w : World) : bind (ret a) k w = k a w.
Proof. reflexivity. Qed.

Lemma bind_write {B} (l : Level) (text : string) (k : unit -> M B) (w : World) :
  bind (write l text) k w = k tt (set_console (console w ++ [(l, text)]) w).
Proof. reflexivity. Qed.

Lemma bind_modify {B} (f : World -> World) (k : unit -> M B) (w : World) :
  bind (modify f) k w = k tt (f w).
Proof. reflexivity. Qed.

Lemma bind_die {A B} (message : string) (code : Z) (k : A -> M B) (w : World) :
  bind (die message code) k w
  = Exited code (set_console (console w ++ [(Error, message)]) w).
Proof. reflexivity. Qed.

Lemma die_eq {A} (message : string) (code : Z) (w : World) :
  @die A message code w
  = Exited code (set_console (console w ++ [(Error, message)]) w).
Proof. reflexivity. Qed.

Section Aliases.
Context `{L : GoLib}.

Lemma isVersionInstalled_returns (version : string) (w : World) :
  exists b w', isVersionInstalled version w = Returned b w' /\ extends w w'.
Proof.
  unfold isVersionInstalled.
  destruct (getInstalledVersions_spec version w) as (res & w1 & E & X & _).
  rewrite (bind_returned _ _ _ _ _ E). by eexists _, w1.
Qed.

(** What a successful [alias] has done: the record holds the version, and
    everything but the file system and the console is as before. *)
Lemma alias_Returned (name version : string) (w w' : World) :
  alias name version w = Returned tt w' ->
  name <> "" /\ version <> ""
  /\ (getAliasPath w name ∉ denied w)
  /\ fs w' = <[getAliasPath w name := File false version]>
               (mkdir_parents (getAliasPath w name) (fs w))
  /\ dvmDir w' = dvmDir w /\ denied w' = denied w /\ env_PATH w' = env_PATH w.
Proof.
  unfold alias.
  destruct (String.eqb_spec name "") as [->|Hn]; [done|].
  destruct (String.eqb_spec version "") as [->|Hv]; [done|]. cbn [orb].
  destruct (isVersionInstalled_returns version w) as (b & w1 & E & X).
  rewrite (bind_returned _ _ _ _ _ E).
  destruct b; cbn [negb]; [|done].
  pose proof (extends_fs _ _ X) as Hfs. pose proof (extends_dvmDir _ _ X) as Hd.
  pose proof (extends_denied _ _ X) as Hden. pose proof (extends_PATH _ _ X) as Hp.
  unfold getAliasPath. rewrite <- Hd, <- Hden, <- Hfs, <- Hp.
  rewrite bind_get.
  remember (Filepath.Join [dvmDir w1; "alias"; name]) as path eqn:Epath. clear Epath.
  unfold os_Stat. rewrite bind_get.
  assert (Hstep : forall w2, fs w2 = fs w1 -> dvmDir w2 = dvmDir w1 ->
            denied w2 = denied w1 -> env_PATH w2 = env_PATH w1 ->
            (writeFile path version ;;
             writeInfo ("Aliased " +:+ name +:+ " to " +:+ version +:+ ".")) w2
            = Returned tt w' ->
            name <> "" /\ version <> "" /\ (path ∉ denied w1)
            /\ fs w' = <[path := File false version]> (mkdir_parents path (fs w1))
            /\ dvmDir w' = dvmDir w1 /\ denied w' = denied w1
            /\ env_PATH w' = env_PATH w1).
  { intros w2 Hf2 Hd2 Hden2 Hp2. unfold writeFile. unfold bind at 1. rewrite bind_get.
    unfold id. rewrite Hden2.
    destruct (decide (path ∈ denied w1)) as [Hin|Hin]; [by rewrite die_eq|].
    cbn. intros [= <-]. cbn. rewrite Hf2. by repeat split. }
  destruct (Stat path (fs w1)); cbn [is_nil].
  - unfold writeDebug. rewrite bind_write. intros Hr.
    refine (Hstep _ _ _ _ _ Hr); reflexivity.
  - rewrite bind_ret. intros Hr.
    refine (Hstep _ _ _ _ _ Hr); reflexivity.
Qed.

Lemma aliasExists_value (name : string) (w : World) :
  aliasExists name w
  = Returned (match fs w !! getAliasPath w name with
              | Some _ => true
              | None => false
              end) w.
Proof.
  unfold aliasExists, bind, get, os_Stat, get, Stat, ret.
  by destruct (fs w !! getAliasPath w name).
Qed.

(** X5. After [alias] has returned, the record can be read back: the alias
    exists, reading its file gives the version that was passed, an existing
    record of that name is overwritten, and no other existing entry of the
    file system has changed. *)
Theorem alias_then_read_back (name version : string) (w w' : World) :
  alias name version w = Returned tt w' ->
  aliasExists name w' = Returned true w'
  /\ ioutil_ReadFile (getAliasPath w' name) w' = Returned (version, None) w'
  /\ (forall k n, k <> getAliasPath w name -> fs w !! k = Some n ->
                  fs w' !! k = Some n).
Proof.
  intros (Hn & Hv & Hden & Hfs & Hd & _)%alias_Returned.
  assert (Hp : getAliasPath w' name = getAliasPath w name).
  { unfold getAliasPath. by rewrite Hd. }
  split; [|split].
  - unfold aliasExists, bind, get, os_Stat, get, Stat. rewrite Hp, Hfs.
    by rewrite lookup_insert_eq.
  - unfold ioutil_ReadFile, get, Stat. rewrite Hp, Hfs. by rewrite lookup_insert_eq.
  - intros k n Hk Hkn. rewrite Hfs, lookup_insert_ne by done.
    by apply mkdir_parents_preserves.
Qed.

(** X6. [unalias] undoes [alias]: after [alias] has returned, [unalias] of
    the same name returns, the record is gone, the alias no longer exists,
    and every other entry is as [alias] left it. *)
Theorem unalias_undoes_alias (name version : string) (w w1 : World) :
  alias name version w = Returned tt w1 ->
  exists w2,
    unalias name w1 = Returned tt w2
    /\ fs w2 = delete (getAliasPath w name) (fs w1)
    /\ aliasExists name w2 = Returned false w2.
Proof.
  intros (Hn & Hv & Hden & Hfs & Hd & Hden1 & _)%alias_Returned.
  assert (Hp : getAliasPath w1 name = getAliasPath w name).
  { unfold getAliasPath. by rewrite Hd. }
  apply String.eqb_neq in Hn.
  assert (Hl : fs w1 !! getAliasPath w name = Some (File false version)).
  { by rewrite Hfs, lookup_insert_eq. }
  unfold unalias. rewrite Hn.
  rewrite (bind_returned _ _ _ _ _ (aliasExists_value name w1)).
  rewrite Hp, Hl. cbn [negb]. rewrite bind_get, Hp.
  unfold os_Remove. unfold bind at 1. rewrite bind_get. unfold id, Stat.
  rewrite Hl. rewrite decide_False by (by rewrite Hden1).
  rewrite bind_modify. unfold ret at 1. cbn [is_nil negb].
  unfold writeInfo, write, modify.
  eexists. split; [reflexivity|]. split; [done|].
  rewrite aliasExists_value. cbn [fs set_console set_fs].
  unfold getAliasPath. cbn [dvmDir set_console set_fs].
  fold (getAliasPath w1 name). rewrite Hp. by rewrite lookup_delete_eq.
Qed.


End Aliases.

(** ** The catalog and the release check *)

Section CatalogMore.
Context `{L : GoLib}.

(** X8. What [getAvailableVersions] returns is in ascending byte order (so
    1.10.0 comes before 1.9.0), it holds exactly the versions whose tag, [v]
    followed by the version, was fetched, has the shape of the tag pattern
    and is matched by the compiled pattern, and the call has changed
    nothing. *)
Theorem getAvailableVersions_sorted_exact (pattern : string) (w w' : World)
    (vs : list string) :
  getAvailableVersions pattern w = Returned vs w' ->
  w' = w
  /\ Sorted String.le vs
  /\ String.le "1.10.0" "1.9.0"
  /\ exists tags m,
       docker_tags w = Response 200 tags /\ regexp_Compile pattern = Some m
       /\ forall v, v ∈ vs <-> String "v" v ∈ tags /\ version_shape v = true
                               /\ m (String "v" v) = true.
Proof.
  intros Hr.
  destruct (proj1 (getAvailableVersions_Returned _ _ _ _) Hr)
    as (tags & m & Ht & Hc & Hvs & Hw).
  split; [done|]. split; [|split; [done|]].
  - rewrite Hvs. unfold Str.sort. apply Sorted_merge_sort. apply _.
  - exists tags, m. split; [done|]. split; [done|]. intros v.
    by apply (getAvailableVersions_elem_of pattern w w').
Qed.

Lemma write_each (vs : list string) (w : World) :
  fold_right (fun version k => writeInfo version ;; k) (ret tt) vs w
  = Returned tt (set_console (console w ++ map (fun v => (Info, v)) vs) w).
Proof.
  revert w. induction vs as [|v vs IH]; intros w.
  - cbn. unfold ret. f_equal. destruct w; cbn. by rewrite app_nil_r.
  - cbn [fold_right map]. unfold writeInfo at 1. rewrite bind_write, IH.
    f_equal. destruct w; cbn. by rewrite <- app_assoc.
Qed.

(** X9. [listRemote] writes the available versions, one line each, in the
    order [getAvailableVersions] gives them, and nothing else; when the
    catalog query ends the process, [listRemote] ends with the same code and
    has listed nothing. *)
Theorem listRemote_lists_the_catalog (pattern : string) (w : World) :
  match getAvailableVersions pattern w with
  | Returned vs w1 =>
      listRemote pattern w
      = Returned tt (set_console (console w ++ map (fun v => (Info, v)) vs) w)
  | Exited code w1 =>
      listRemote pattern w = Exited code w1
      /\ Forall (fun m => fst m <> Info) (drop (length (console w)) (console w1))
  | OutOfFuel _ => False
  end.
Proof.
  unfold listRemote, bind.
  destruct (getAvailableVersions pattern w) as [vs w1|code w1|w1] eqn:E.
  - destruct (proj1 (getAvailableVersions_Returned _ _ _ _) E)
      as (_ & _ & _ & _ & _ & ->).
    apply write_each.
  - split; [done|]. revert E.
    unfold getAvailableVersions, bind, get, warnWhenRateLimitExceeded, die, bind,
      writeWarning, write, modify, os_Exit.
    destruct (docker_tags w) as [status tags|[status|]]; cbn.
    + destruct (status =? 200); cbn.
      * destruct (regexp_Compile pattern); [done|].
        intros [= <- <-]. cbn. rewrite drop_app_length. by repeat constructor.
      * intros [= <- <-]. cbn. rewrite drop_app_length. by repeat constructor.
    + destruct (status =? 403); cbn; intros [= <- <-]; cbn.
      * rewrite <- app_assoc, drop_app_length. by repeat constructor.
      * rewrite drop_app_length. by repeat constructor.
    + intros [= <- <-]. cbn. rewrite drop_app_length. by repeat constructor.
  - revert E.
    unfold getAvailableVersions, bind, get, warnWhenRateLimitExceeded, die, bind,
      writeWarning, write, modify, os_Exit.
    destruct (docker_tags w) as [status tags|[status|]]; cbn.
    + destruct (status =? 200); cbn; [|done]. by destruct (regexp_Compile pattern).
    + by destruct (status =? 403).
    + done.
Qed.

(** X10. [isUpgradeAvailable] answers [true] only for a release that was
    fetched with status 200, whose tag and the running version both parse as
    semantic versions, and that compares greater than the running version;
    the tag it returns is the fetched one.  When it answers [false],
    [upgrade] without a version ends there, whether or not it was asked to
    check only. *)
Theorem isUpgradeAvailable_sound (w w1 : World) (b checkOnly : bool) (tag : string) :
  isUpgradeAvailable w = Returned (b, tag) w1 ->
  if b then
    exists running latest,
      dvm_latest_release w = Response 200 tag
      /\ semver_Make (dvmVersion w) = Some running
      /\ semver_Make tag = Some latest
      /\ semver_Compare latest running > 0
  else
    upgrade checkOnly "" w
    = Returned tt (set_console
        (console w1 ++ [(Info, "The latest version of dvm is already installed.")]) w1).
Proof.
  intros E. destruct b.
  - revert E. unfold isUpgradeAvailable. rewrite bind_get.
    destruct (dvm_latest_release w) as [status tagName|response].
    + destruct (status =? 200) eqn:Hs; cbn [negb]; [|by repeat rewrite bind_write].
      apply Z.eqb_eq in Hs as ->. rewrite bind_get.
      destruct (semver_Make (dvmVersion w)) as [running|] eqn:Er;
        [|by repeat rewrite bind_write].
      destruct (semver_Make tagName) as [latest|] eqn:El;
        [|by repeat rewrite bind_write].
      unfold ret. intros [= Hc <- <-]. exists running, latest.
      repeat split; try done. by apply Z.gtb_lt, Z.lt_gt in Hc.
    + unfold bind at 1.
      destruct (warnWhenRateLimitExceeded _ response w) as [[] w2|code w2|w2]; [|done..].
      by repeat rewrite bind_write.
  - unfold upgrade. rewrite bind_get. cbn [String.eqb negb andb].
    unfold bind at 1. unfold bind at 1. by rewrite E.
Qed.

End CatalogMore.

(** ** Reading the version a client prints *)

Lemma strip_prefix_append (p s : string) : Str.strip_prefix p (p +:+ s) = Some s.
Proof.
  induction p as [|a p IH]; [done|].
  rewrite append_cons. cbn. by rewrite Ascii.eqb_refl.
Qed.

Lemma before_byte_append (c : ascii) (s t : string) :
  Str.has_byte c s = false ->
  Str.before_byte c (s +:+ t) = s +:+ Str.before_byte c t.
Proof.
  induction s as [|a s IH]; [done|]. cbn.
  intros [Ha Hs]%orb_false_iff. rewrite !append_cons. cbn. by rewrite Ha, IH.
Qed.

Lemma before_byte_keeps_absent (c d : ascii) (s : string) :
  Str.has_byte c s = false -> Str.has_byte c (Str.before_byte d s) = false.
Proof.
  induction s as [|a s IH]; [done|]. cbn.
  intros [Ha Hs]%orb_false_iff. destruct (Ascii.eqb a d); [done|].
  cbn. by rewrite Ha, IH.
Qed.

Lemma before_last_byte_absent (c : ascii) (s : string) :
  Str.has_byte c s = false -> Str.before_last_byte c s = None.
Proof.
  induction s as [|a s IH]; [done|]. cbn.
  intros [Ha Hs]%orb_false_iff. by rewrite (IH Hs), Ha.
Qed.

Lemma before_last_byte_append (c : ascii) (s t : string) :
  Str.has_byte c t = false ->
  Str.before_last_byte c (s +:+ String c t) = Some s.
Proof.
  intros Ht. induction s as [|a s IH].
  - rewrite append_empty_l. cbn.
    by rewrite (before_last_byte_absent c t Ht), Ascii.eqb_refl.
  - rewrite append_cons. cbn. by rewrite IH.
Qed.

Lemma strip_prefix_has_byte (c : ascii) (p s r : string) :
  Str.strip_prefix p s = Some r -> Str.has_byte c s = false ->
  Str.has_byte c r = false.
Proof.
  revert s. induction p as [|a p IH]; intros s.
  - cbn. by intros [= ->].
  - destruct s as [|b s]; [done|]. cbn.
    destruct (Ascii.eqb a b); [|done]. intros Hr [_ Hs]%orb_false_iff.
    by apply (IH s).
Qed.

(** X11. [getDockerVersion] reads the version back from a client that
    prints [Docker version V, ...]: for every [V] without line break, and
    every rest of the output without comma, the result is [V] and no error.
    A client whose output has no comma at all gives the error. *)
Theorem getDockerVersion_reads_version (path v rest : string) (x : bool) (w : World) :
  Str.has_byte newline v = false ->
  Str.has_byte "," rest = false ->
  (fs w !! path = Some (File true ("Docker version " +:+ v +:+ "," +:+ rest)) ->
   returned (getDockerVersion path w) = Some (v, None))
  /\ (fs w !! path = Some (File x rest) ->
      returned (getDockerVersion path w)
      = Some ("", Some "Could not detect docker version.")).
Proof.
  intros Hv Hrest. split; intros Hf.
  - unfold getDockerVersion, exec_Output. rewrite bind_get. unfold Stat. rewrite Hf.
    unfold writeDebug. rewrite bind_write.
    unfold dockerRegex_FindSubmatch. rewrite strip_prefix_append.
    rewrite before_byte_append by done.
    change ("," +:+ rest) with (String "," rest). cbn [Str.before_byte].
    change (Ascii.eqb "," newline) with false. cbv iota.
    rewrite before_last_byte_append; [done|].
    by apply before_byte_keeps_absent.
  - unfold getDockerVersion, exec_Output. rewrite bind_get. unfold Stat. rewrite Hf.
    unfold writeDebug. rewrite bind_write.
    assert (Hn : dockerRegex_FindSubmatch (if x then rest else "") = []).
    { unfold dockerRegex_FindSubmatch. destruct x; [|done].
      destruct (Str.strip_prefix _ rest) as [r|] eqn:Er; [|done].
      rewrite before_last_byte_absent; [done|].
      apply before_byte_keeps_absent. by eapply strip_prefix_has_byte. }
    destruct x; by rewrite Hn.
Qed.

(** ** The properties above, on the sample worlds *)

Lemma uninstall_touches_the_version_only_witness :
  let w := Sample.two_releases in
  below (getVersionDir w "1.10.0") "/home/u/.dvm/bin/docker/1.1.0/docker" = false
  /\ fs (final (uninstall "1.10.0" w)) !! "/home/u/.dvm/bin/docker/1.1.0/docker"
     = fs w !! "/home/u/.dvm/bin/docker/1.1.0/docker".
Proof.
  cbv zeta. split; [reflexivity|].
  apply (uninstall_touches_the_version_only "1.10.0"). reflexivity.
Defined.

Lemma uninstall_removes_the_directory_witness :
  let w := Sample.two_releases in
  let k := "/home/u/.dvm/bin/docker/1.10.0/docker" in
  "1.10.0" <> ""
  /\ getCurrentDockerVersion w
     = Returned ("system (1.9.1)", None) (final (getCurrentDockerVersion w))
  /\ "system (1.9.1)" <> "1.10.0"
  /\ is_Some (fs w !! getVersionDir w "1.10.0")
  /\ (getVersionDir w "1.10.0" ∉ denied w)
  /\ below (getVersionDir w "1.10.0") k = true
  /\ returned (uninstall "1.10.0" w) = Some tt
  /\ fs (final (uninstall "1.10.0" w)) !! k = None.
Proof.
  cbv zeta.
  assert (H1 : "1.10.0" <> "") by done.
  assert (H2 : getCurrentDockerVersion Sample.two_releases
     = Returned ("system (1.9.1)", None) (final (getCurrentDockerVersion Sample.two_releases)))
    by (vm_compute; reflexivity).
  assert (H3 : "system (1.9.1)" <> "1.10.0") by done.
  assert (H4 : is_Some (fs Sample.two_releases !! getVersionDir Sample.two_releases "1.10.0"))
    by (vm_compute; eauto).
  assert (H5 : (getVersionDir Sample.two_releases "1.10.0" ∉ denied Sample.two_releases))
    by (apply not_elem_of_empty).
  assert (H6 : below (getVersionDir Sample.two_releases "1.10.0")
                 "/home/u/.dvm/bin/docker/1.10.0/docker" = true) by reflexivity.
  do 6 (split; [assumption|]).
  exact (uninstall_removes_the_directory "1.10.0" _ _ _ _ _ H1 H2 H3 H4 H5 H6).
Defined.

Lemma alias_then_read_back_witness :
  let w := Sample.two_releases in
  let w' := final (alias (L := Sample.lib) "latest" "1.10.0" w) in
  alias (L := Sample.lib) "latest" "1.10.0" w = Returned tt w'
  /\ aliasExists "latest" w' = Returned true w'
  /\ ioutil_ReadFile (getAliasPath w' "latest") w' = Returned ("1.10.0", None) w'
  /\ (forall k n, k <> getAliasPath w "latest" -> fs w !! k = Some n ->
                  fs w' !! k = Some n).
Proof.
  cbv zeta.
  assert (H : alias (L := Sample.lib) "latest" "1.10.0" Sample.two_releases
              = Returned tt (final (alias (L := Sample.lib) "latest" "1.10.0"
                                      Sample.two_releases)))
    by (vm_compute; reflexivity).
  split; [exact H|]. exact (alias_then_read_back (L := Sample.lib) _ _ _ _ H).
Defined.

Lemma unalias_undoes_alias_witness :
  let w := Sample.two_releases in
  let w1 := final (alias (L := Sample.lib) "stable" "1.1.0" w) in
  alias (L := Sample.lib) "stable" "1.1.0" w = Returned tt w1
  /\ exists w2,
       unalias "stable" w1 = Returned tt w2
       /\ fs w2 = delete (getAliasPath w "stable") (fs w1)
       /\ aliasExists "stable" w2 = Returned false w2.
Proof.
  cbv zeta.
  assert (H : alias (L := Sample.lib) "stable" "1.1.0" Sample.two_releases
              = Returned tt (final (alias (L := Sample.lib) "stable" "1.1.0"
                                      Sample.two_releases)))
    by (vm_compute; reflexivity).
  split; [exact H|]. exact (unalias_undoes_alias (L := Sample.lib) _ _ _ _ H).
Defined.


Lemma getAvailableVersions_sorted_exact_witness :
  let w := Sample.two_releases in
  getAvailableVersions (L := Sample.lib) "" w = Returned ["1.10.0"; "1.9.1"; "11.2.3"] w
  /\ w = w
  /\ Sorted String.le ["1.10.0"; "1.9.1"; "11.2.3"]
  /\ String.le "1.10.0" "1.9.0"
  /\ exists tags m,
       docker_tags w = Response 200 tags
       /\ regexp_Compile (GoLib := Sample.lib) "" = Some m
       /\ forall v, v ∈ ["1.10.0"; "1.9.1"; "11.2.3"]
                    <-> String "v" v ∈ tags /\ version_shape v = true
                        /\ m (String "v" v) = true.
Proof.
  cbv zeta.
  assert (H : getAvailableVersions (L := Sample.lib) "" Sample.two_releases
              = Returned ["1.10.0"; "1.9.1"; "11.2.3"] Sample.two_releases)
    by (vm_compute; reflexivity).
  split; [exact H|].
  exact (getAvailableVersions_sorted_exact (L := Sample.lib) _ _ _ _ H).
Defined.

Lemma isUpgradeAvailable_sound_witness :
  let w := Sample.two_releases in
  let w1 := final (isUpgradeAvailable (L := Sample.lib) w) in
  isUpgradeAvailable (L := Sample.lib) w = Returned (true, "0.3.0") w1
  /\ exists running latest,
       dvm_latest_release w = Response 200 "0.3.0"
       /\ semver_Make (GoLib := Sample.lib) (dvmVersion w) = Some running
       /\ semver_Make (GoLib := Sample.lib) "0.3.0" = Some latest
       /\ semver_Compare (GoLib := Sample.lib) latest running > 0.
Proof.
  cbv zeta.
  assert (H : isUpgradeAvailable (L := Sample.lib) Sample.two_releases
              = Returned (true, "0.3.0")
                  (final (isUpgradeAvailable (L := Sample.lib) Sample.two_releases)))
    by (vm_compute; reflexivity).
  split; [exact H|].
  exact (isUpgradeAvailable_sound (L := Sample.lib) _ _ true false "0.3.0" H).
Defined.

Lemma getDockerVersion_reads_version_witness :
  let w := Sample.two_releases in
  Str.has_byte newline "1.9.1" = false
  /\ Str.has_byte "," " build a34a1d5" = false
  /\ (fs w !! "/usr/bin/docker"
      = Some (File true ("Docker version " +:+ "1.9.1" +:+ "," +:+ " build a34a1d5")) ->
      returned (getDockerVersion "/usr/bin/docker" w) = Some ("1.9.1", None))
  /\ (fs w !! "/usr/bin/docker" = Some (File true " build a34a1d5") ->
      returned (getDockerVersion "/usr/bin/docker" w)
      = Some ("", Some "Could not detect docker version.")).
Proof.
  cbv zeta. split; [reflexivity|]. split; [reflexivity|].
  apply (getDockerVersion_reads_version "/usr/bin/docker" "1.9.1" " build a34a1d5" true);
    reflexivity.
Defined.
